(** * The Migrator component of the DAO creator (ui_v2)

    A shallow embedding of the [Migrator] function component: its React
    state, the browser objects it touches ([window.onbeforeunload],
    [localStorage], the console), the notifications it sends to its host
    through its props, and the callback bundle it hands to [migrateDAO].

    Every handler of the component is a state transformer over [World].
    A handler runs on the single event-loop thread, without interruption
    except at an [await]: [startInstallation] is therefore two transformers,
    one up to its [await getWeb3()] and one from there on, and anything may
    happen between the two. The only state a handler reads ([step], in
    [startInstallation]) is read before any setter is called, so applying
    the setters in program order is what React computes for the next render.
    The props [onStart], [onComplete], [onAbort] and [onStop] are taken to
    return normally. *)

From Stdlib Require Import ZArith List String Ascii Lia ZifyNat.
From Stdlib Require PrimFloat FloatOps SpecFloat FloatAxioms.
From stdpp Require Import base option list gmap strings pretty.
Import ListNotations.
Import PrimFloat.PrimFloatNotations.
Number Notation PrimFloat.float PrimFloat.parser PrimFloat.printer : float_scope.

Local Open Scope string_scope.
Set Warnings "-register-all,-inexact-float".

(** ** A small state monad for the handlers *)

Definition M (S A : Type) : Type := S -> A * S.

Definition ret {S A} (a : A) : M S A := fun s => (a, s).

Definition bind {S A B} (m : M S A) (k : A -> M S B) : M S B :=
  fun s => let (a, s') := m s in k a s'.

Definition exec {S A} (m : M S A) (s : S) : S := snd (m s).

Definition eval {S A} (m : M S A) (s : S) : A := fst (m s).

Declare Scope handler_scope.
Delimit Scope handler_scope with handler.
Notation "x <- m ;; k" := (bind m (fun x => k))
  (at level 100, m at next level, right associativity) : handler_scope.
Notation "m ;; k" := (bind m (fun _ => k))
  (at level 100, right associativity) : handler_scope.

(** ** JavaScript values the component passes around *)

(** A JavaScript [Error], kept by its message. *)
Record Error : Type := mkError { message : string }.

(** The numeric enum [STEP]: TypeScript numbers its members from 0, and the
    React state holds the number. *)
Module STEP.
Definition Waiting : Z := 0.
Definition Migrating : Z := 1.
Definition Completed : Z := 2.
Definition Failed : Z := 3.
End STEP.

(** The numeric enum [TX_STATE] (declared by the component, used nowhere). *)
Module TX_STATE.
Definition Broadcasting : Z := 0.
Definition Waiting : Z := 1.
Definition Confirmed : Z := 2.
Definition Failed : Z := 3.
Definition Lost : Z := 4.
End TX_STATE.

(** [x++] on a binding holding [x]: the value of the expression, then the
    value left in the binding. *)
Definition postfix_increment (x : Z) : Z * Z := (x, (x + 1)%Z).

(** A JavaScript number is an IEEE 754 double: the primitive binary64
    floats, whose operations round as the processor does. *)
Abbreviation number := PrimFloat.float.

(** [x += y] on a binding holding [x]: the value of the expression, then
    the value left in the binding. *)
Definition add_assign (x y : number) : number * number :=
  ((x + y)%float, (x + y)%float).

(** [Number(v)] at a value that already is a number. *)
Definition Number (v : number) : number := v.

(** Truthiness of a string: every string but the empty one. *)
Definition truthy (s : string) : bool :=
  match s with
  | EmptyString => false
  | String _ _ => true
  end.

(** Promises are kept in a table of the world, a promise is its index. *)
Inductive PromiseState : Type :=
| Pending
| FulfilledBoolean (resp : bool)
| FulfilledVoid.

Definition PromiseId : Type := nat.

(** Modelled from the spec: the log line classes of [./LogLineTypes], which
    the component imports and constructs but which are not among the source
    files. One constructor per class, with the constructor arguments the
    component passes. The resolver closure [(resp) => resolve(resp)] of a
    user approval is kept as the promise it resolves. *)
Inductive AnyLogLine : Type :=
| LogUserApproval (msg : string) (onResponse : PromiseId)
| LogInfo (msg : string)
| LogError (msg : string)
| LogTransactionResult (msg txHash : string) (txCost : number)
| LogMigrationAborted (err : Error).

(** What [console.log] is given. *)
Inductive ConsoleArg : Type :=
| ConsoleText (s : string)
| ConsoleException (e : Error)
| ConsoleLogLine (l : AnyLogLine).

(** A React setter takes the next value or an updater of the current one. *)
Inductive SetStateAction (A : Type) : Type :=
| Value (a : A)
| Updater (f : A -> A).
Arguments Value {A} a.
Arguments Updater {A} f.

Definition next_state {A} (u : SetStateAction A) (current : A) : A :=
  match u with
  | Value a => a
  | Updater f => f current
  end.

(** The value a call evaluates to: a returned value or a thrown exception. *)
Inductive Completion (A : Type) : Type :=
| Returns (a : A)
| Throws (e : Error).
Arguments Returns {A} a.
Arguments Throws {A} e.

(** The key of the checkpoint in [localStorage]. *)
Definition DAO_MIGRATION_STATE : string := "DAO_MIGRATION_STATE".

(** The text of the prompt installed while a migration runs. *)
Definition leave_prompt : string :=
  "Your migration is still in progress. Do you really want to leave?".

(** ** A model of the JSON built-ins

    [JSON.stringify] and [JSON.parse] belong to the platform. The component
    is verified against any pair of functions (see the section below); this
    module gives one concrete pair over a JSON value type with integer
    numbers, used to run the checkpoint operations on actual data. *)
Module JSON.

Inductive value : Type :=
| Null
| Bool (b : bool)
| Num (n : Z)
| Str (s : string)
| Arr (items : list value)
| Obj (members : list (string * value)).

Definition dquote : ascii := ascii_of_nat 34.
Definition backslash : ascii := ascii_of_nat 92.

Fixpoint escape (s : string) : string :=
  match s with
  | EmptyString => EmptyString
  | String c rest =>
      if (Ascii.eqb c dquote || Ascii.eqb c backslash)%bool
      then String backslash (String c (escape rest))
      else String c (escape rest)
  end.

Definition quote (s : string) : string :=
  String dquote (escape s +:+ String dquote EmptyString).

Definition join (sep : string) (parts : list string) : string :=
  match parts with
  | [] => EmptyString
  | p :: ps => fold_left (fun acc q => acc +:+ sep +:+ q) ps p
  end.

Fixpoint stringify (v : value) : string :=
  match v with
  | Null => "null"
  | Bool true => "true"
  | Bool false => "false"
  | Num n => pretty n
  | Str s => quote s
  | Arr items => "[" +:+ join "," (map stringify items) +:+ "]"
  | Obj members =>
      "{" +:+
      join "," (map (fun kv => quote (fst kv) +:+ ":" +:+ stringify (snd kv)) members)
      +:+ "}"
  end.

(** [s] without the prefix [p], when it starts with it. *)
Fixpoint strip_prefix (p s : string) : option string :=
  match p, s with
  | EmptyString, _ => Some s
  | String a p', String b s' => if Ascii.eqb a b then strip_prefix p' s' else None
  | String _ _, EmptyString => None
  end.

Definition digit_of (c : ascii) : option Z :=
  let n := Z.of_nat (nat_of_ascii c) in
  if ((48 <=? n) && (n <=? 57))%Z then Some (n - 48)%Z else None.

(** The digits at the head of [s], read on top of [acc]; how many there were. *)
Fixpoint read_digits (s : string) (acc : Z) (count : nat) : Z * nat * string :=
  match s with
  | String c rest =>
      match digit_of c with
      | Some d => read_digits rest (10 * acc + d)%Z (S count)
      | None => (acc, count, s)
      end
  | EmptyString => (acc, count, s)
  end.

(** The body of a string literal, after its opening quote. *)
Fixpoint read_string (s : string) : option (string * string) :=
  match s with
  | EmptyString => None
  | String c rest =>
      if Ascii.eqb c dquote then Some (EmptyString, rest)
      else if Ascii.eqb c backslash then
        match rest with
        | String e rest' =>
            if (Ascii.eqb e dquote || Ascii.eqb e backslash)%bool then
              match read_string rest' with
              | Some (body, tail) => Some (String e body, tail)
              | None => None
              end
            else None
        | EmptyString => None
        end
      else
        match read_string rest with
        | Some (body, tail) => Some (String c body, tail)
        | None => None
        end
  end.

(** What the parser is in the middle of. *)
Inductive mode : Type :=
| AValue
| Items (seen : list value)
| Members (seen : list (string * value)).

Fixpoint parse_with (fuel : nat) (m : mode) (s : string) : option (value * string) :=
  match fuel with
  | O => None
  | S fuel =>
      match m with
      | AValue =>
          match s with
          | String c rest =>
              if Ascii.eqb c dquote then
                match read_string rest with
                | Some (body, tail) => Some (Str body, tail)
                | None => None
                end
              else if Ascii.eqb c "["%char then
                match rest with
                | String "]"%char tail => Some (Arr [], tail)
                | _ => parse_with fuel (Items []) rest
                end
              else if Ascii.eqb c "{"%char then
                match rest with
                | String "}"%char tail => Some (Obj [], tail)
                | _ => parse_with fuel (Members []) rest
                end
              else if Ascii.eqb c "-"%char then
                match read_digits rest 0 0 with
                | (_, O, _) => None
                | (n, S _, tail) => Some (Num (- n), tail)
                end
              else
                match strip_prefix "null" s, strip_prefix "true" s, strip_prefix "false" s with
                | Some tail, _, _ => Some (Null, tail)
                | _, Some tail, _ => Some (Bool true, tail)
                | _, _, Some tail => Some (Bool false, tail)
                | None, None, None =>
                    match read_digits s 0 0 with
                    | (_, O, _) => None
                    | (n, S _, tail) => Some (Num n, tail)
                    end
                end
          | EmptyString => None
          end
      | Items seen =>
          match parse_with fuel AValue s with
          | Some (v, String ","%char tail) => parse_with fuel (Items (v :: seen)) tail
          | Some (v, String "]"%char tail) => Some (Arr (rev (v :: seen)), tail)
          | _ => None
          end
      | Members seen =>
          match s with
          | String c rest =>
              if Ascii.eqb c dquote then
                match read_string rest with
                | Some (key, String ":"%char rest') =>
                    match parse_with fuel AValue rest' with
                    | Some (v, String ","%char tail) =>
                        parse_with fuel (Members ((key, v) :: seen)) tail
                    | Some (v, String "}"%char tail) =>
                        Some (Obj (rev ((key, v) :: seen)), tail)
                    | _ => None
                    end
                | _ => None
                end
              else None
          | EmptyString => None
          end
      end
  end.

(** [None] stands for the [SyntaxError] that [JSON.parse] throws. *)
Definition parse (s : string) : option value :=
  match parse_with (2 * String.length s + 2) AValue s with
  | Some (v, EmptyString) => Some v
  | _ => None
  end.

(** A checkpoint as the migration library could store it. *)
Definition sample_checkpoint : value :=
  Obj [ ("network", Str "rinkeby");
        ("nonce", Num 42);
        ("deployed", Arr [Str "Avatar"; Str "DAOToken"]);
        ("restart", Bool false);
        ("error", Null) ].

End JSON.

(** * Doubles that are not negative

    What the component needs of the arithmetic of doubles: adding a number
    that is not negative to a number that is not negative gives a number
    that is not negative either and not smaller than the first. The
    operations of the primitive floats are specified by the operations on
    [spec_float], sign, mantissa and exponent; the facts are proved there,
    rounding included. *)
Module Double.

Import SpecFloat.

Local Open Scope Z_scope.


Section Format.

Variable prec emax : Z.
Hypothesis prec_positive : 0 < prec.


Lemma fexp_mono a b : a <= b -> fexp prec emax a <= fexp prec emax b.
Proof. unfold fexp. lia. Qed.




















End Format.

(** ** The same on the primitive floats *)






End Double.

(** ** The component *)

Section Migrator.

(** Types of [@dorgtech/daocreator-lib], opaque to the component, and the
    type [any] of a checkpoint. *)
Context {DAOMigrationParams DAOMigrationResult Web3 any : Type}.

(** [JSON.stringify] ([None] is its [undefined]), [JSON.parse] ([None] is
    its [SyntaxError]) and the object literal [{}]. *)
Variable JSON_stringify : any -> option string.
Variable JSON_parse : string -> option any.
Variable empty_object : any.

(** The prop [dao]: the deployment specification the host passes in. *)
Variable dao : DAOMigrationParams.

(** What the component does to the outside, in the order it does it: writes
    to the console, calls of the host's props, calls of [migrateDAO]. *)
Inductive Effect : Type :=
| console_log (a : ConsoleArg)
| onStart
| onComplete (result : DAOMigrationResult)
| onAbort (err : Error)
| onStop
| migrateDAO (dao : DAOMigrationParams).

(** The [useState] cells of the component. *)
Record State : Type := mkState {
  step : Z;
  txList : gmap string string;
  noWeb3Open : bool;
  fullLogLines : list AnyLogLine;
  minimalLogLines : list AnyLogLine;
  ethSpent : number;
  result : option DAOMigrationResult;
  state : gmap string string
}.

(** The component in its page. [onbeforeunload] is [None] while no handler
    is assigned, and otherwise holds what the assigned handler returns:
    [Some text] makes the browser ask before leaving, [None] does not.
    [awaiting_getWeb3] counts the calls of [startInstallation] that are
    suspended at their [await]. *)
Record World : Type := mkWorld {
  react : State;
  onbeforeunload : option (option string);
  localStorage : gmap string string;
  promises : list PromiseState;
  awaiting_getWeb3 : nat;
  effects : list Effect
}.

Definition initial_State : State :=
  {| step := STEP.Waiting;
     txList := ∅;
     noWeb3Open := false;
     fullLogLines := [];
     minimalLogLines := [];
     ethSpent := 0%float;
     result := None;
     state := ∅ |}.

(** A freshly mounted component; the storage outlives the page. *)
Definition mount (storage : gmap string string) : World :=
  {| react := initial_State;
     onbeforeunload := None;
     localStorage := storage;
     promises := [];
     awaiting_getWeb3 := 0;
     effects := [] |}.

(** *** Primitive operations *)

Definition with_react (f : State -> State) : M World unit :=
  fun w => (tt, {| react := f (react w);
                   onbeforeunload := onbeforeunload w;
                   localStorage := localStorage w;
                   promises := promises w;
                   awaiting_getWeb3 := awaiting_getWeb3 w;
                   effects := effects w |}).

Definition setStep (u : SetStateAction Z) : M World unit :=
  with_react (fun s =>
    mkState (next_state u (step s)) (txList s) (noWeb3Open s) (fullLogLines s)
            (minimalLogLines s) (ethSpent s) (result s) (state s)).

Definition setTxList (u : SetStateAction (gmap string string)) : M World unit :=
  with_react (fun s =>
    mkState (step s) (next_state u (txList s)) (noWeb3Open s) (fullLogLines s)
            (minimalLogLines s) (ethSpent s) (result s) (state s)).

Definition setNoWeb3Open (u : SetStateAction bool) : M World unit :=
  with_react (fun s =>
    mkState (step s) (txList s) (next_state u (noWeb3Open s)) (fullLogLines s)
            (minimalLogLines s) (ethSpent s) (result s) (state s)).

Definition setFullLogLines (u : SetStateAction (list AnyLogLine)) : M World unit :=
  with_react (fun s =>
    mkState (step s) (txList s) (noWeb3Open s) (next_state u (fullLogLines s))
            (minimalLogLines s) (ethSpent s) (result s) (state s)).

Definition setMinimalLogLines (u : SetStateAction (list AnyLogLine)) : M World unit :=
  with_react (fun s =>
    mkState (step s) (txList s) (noWeb3Open s) (fullLogLines s)
            (next_state u (minimalLogLines s)) (ethSpent s) (result s) (state s)).

Definition setEthSpent (u : SetStateAction number) : M World unit :=
  with_react (fun s =>
    mkState (step s) (txList s) (noWeb3Open s) (fullLogLines s)
            (minimalLogLines s) (next_state u (ethSpent s)) (result s) (state s)).

Definition setResult (u : SetStateAction (option DAOMigrationResult)) : M World unit :=
  with_react (fun s =>
    mkState (step s) (txList s) (noWeb3Open s) (fullLogLines s)
            (minimalLogLines s) (ethSpent s) (next_state u (result s)) (state s)).

(** The current render's [step]. *)
Definition read_step : M World Z := fun w => (step (react w), w).

Definition emit (e : Effect) : M World unit :=
  fun w => (tt, {| react := react w;
                   onbeforeunload := onbeforeunload w;
                   localStorage := localStorage w;
                   promises := promises w;
                   awaiting_getWeb3 := awaiting_getWeb3 w;
                   effects := effects w ++ [e] |}).

Definition set_onbeforeunload (returned : option string) : M World unit :=
  fun w => (tt, {| react := react w;
                   onbeforeunload := Some returned;
                   localStorage := localStorage w;
                   promises := promises w;
                   awaiting_getWeb3 := awaiting_getWeb3 w;
                   effects := effects w |}).

Definition with_localStorage
    (f : gmap string string -> gmap string string) : M World unit :=
  fun w => (tt, {| react := react w;
                   onbeforeunload := onbeforeunload w;
                   localStorage := f (localStorage w);
                   promises := promises w;
                   awaiting_getWeb3 := awaiting_getWeb3 w;
                   effects := effects w |}).

Definition localStorage_getItem (key : string) : M World (option string) :=
  fun w => (localStorage w !! key, w).

(** [setItem] stores the string form of its argument: [undefined] is stored
    as the text undefined. *)
Definition localStorage_setItem (key : string) (v : option string) : M World unit :=
  with_localStorage (fun m => <[key := default "undefined" v]> m).

Definition localStorage_removeItem (key : string) : M World unit :=
  with_localStorage (fun m => delete key m).

(** [new Promise(executor)]: the promise is pending when the executor
    starts. *)
Definition new_Promise : M World PromiseId :=
  fun w => (length (promises w),
            {| react := react w;
               onbeforeunload := onbeforeunload w;
               localStorage := localStorage w;
               promises := promises w ++ [Pending];
               awaiting_getWeb3 := awaiting_getWeb3 w;
               effects := effects w |}).

(** [resolve(v)]: settles a pending promise, does nothing to a settled one. *)
Definition resolve (p : PromiseId) (v : PromiseState) : M World unit :=
  fun w => (tt, {| react := react w;
                   onbeforeunload := onbeforeunload w;
                   localStorage := localStorage w;
                   promises :=
                     match promises w !! p with
                     | Some Pending => <[p := v]> (promises w)
                     | _ => promises w
                     end;
                   awaiting_getWeb3 := awaiting_getWeb3 w;
                   effects := effects w |}).

(** Suspending at, and resuming from, [await getWeb3()]. *)
Definition with_awaiting_getWeb3 (f : nat -> nat) : M World unit :=
  fun w => (tt, {| react := react w;
                   onbeforeunload := onbeforeunload w;
                   localStorage := localStorage w;
                   promises := promises w;
                   awaiting_getWeb3 := f (awaiting_getWeb3 w);
                   effects := effects w |}).

Definition suspend_at_getWeb3 : M World unit := with_awaiting_getWeb3 S.

Definition resume_from_getWeb3 : M World unit := with_awaiting_getWeb3 pred.

(** *** The handlers of the component *)

Local Open Scope handler_scope.
Local Open Scope list_scope.

Definition resetState : M World unit :=
  setStep (Value STEP.Waiting) ;;
  setTxList (Value ∅) ;;
  setNoWeb3Open (Value false).

Definition nextStep : M World unit :=
  emit (console_log (ConsoleText "Go to next step")) ;;
  setStep (Updater (fun step => fst (postfix_increment step))).

(** How the awaited [getWeb3()] ends: the promise rejects, or it resolves
    to a provider or to nothing. *)
Inductive getWeb3_result : Type :=
| getWeb3_rejects (e : Error)
| getWeb3_resolves (web3 : option Web3).

(** [startInstallation] up to [await getWeb3()]: it returns at once
    outside the phase [Waiting], and is suspended otherwise. *)
Definition startInstallation : M World unit :=
  emit (console_log (ConsoleText "Starting Installation")) ;;
  step <- read_step ;;
  if negb (step =? STEP.Waiting)%Z then ret tt
  else suspend_at_getWeb3.

(** [startInstallation] from its [await] on, once [getWeb3] has settled.
    The callback bundle built by [getCallbacks] closes over setters and
    props only, so the [migrateDAO] effect records the [dao] it is given. *)
Definition startInstallation_resumed (provider : getWeb3_result) : M World unit :=
  resume_from_getWeb3 ;;
  web3 <- match provider with
          | getWeb3_rejects e =>
              emit (console_log (ConsoleException e)) ;; ret None
          | getWeb3_resolves web3 => ret web3
          end ;;
  match web3 with
  | None => setNoWeb3Open (Value true)
  | Some _ =>
      set_onbeforeunload (Some leave_prompt) ;;
      setFullLogLines (Value []) ;;
      setMinimalLogLines (Value []) ;;
      emit onStart ;;
      setResult (Value None) ;;
      setStep (Value STEP.Migrating) ;;
      emit (migrateDAO dao)
  end.

(** *** The callback bundle of [getCallbacks] *)

Definition addLogLine (logLine : AnyLogLine) : M World unit :=
  emit (console_log (ConsoleLogLine logLine)).

Definition userApproval (msg : string) : M World PromiseId :=
  p <- new_Promise ;;
  addLogLine (LogUserApproval msg p) ;;
  ret p.

Definition info (msg : string) : M World unit := addLogLine (LogInfo msg).

Definition error (msg : string) : M World unit := addLogLine (LogError msg).

Definition txComplete (msg txHash : string) (txCost : number) : M World PromiseId :=
  p <- new_Promise ;;
  setEthSpent (Updater (fun ethSpent => fst (add_assign ethSpent (Number txCost)))) ;;
  addLogLine (LogTransactionResult msg txHash txCost) ;;
  resolve p FulfilledVoid ;;
  ret p.

Definition migrationAborted (err : Error) : M World unit :=
  addLogLine (LogMigrationAborted err) ;;
  emit (onAbort err) ;;
  setStep (Value STEP.Failed) ;;
  emit onStop.

Definition migrationComplete (res : DAOMigrationResult) : M World unit :=
  set_onbeforeunload None ;;
  setResult (Value (Some res)) ;;
  setStep (Value STEP.Completed) ;;
  emit (onComplete res) ;;
  emit onStop.

Definition SyntaxError : Error := mkError "SyntaxError".

Definition getState : M World (Completion any) :=
  localState <- localStorage_getItem DAO_MIGRATION_STATE ;;
  match localState with
  | Some text =>
      if truthy text then
        match JSON_parse text with
        | Some v => ret (Returns v)
        | None => ret (Throws SyntaxError)
        end
      else ret (Returns empty_object)
  | None => ret (Returns empty_object)
  end.

Definition setState (st : any) : M World unit :=
  localStorage_setItem DAO_MIGRATION_STATE (JSON_stringify st).

Definition cleanState : M World unit :=
  localStorage_removeItem DAO_MIGRATION_STATE.

(** *** Sessions

    Everything that can happen to a mounted component: the button is
    clicked, the [getWeb3] that a suspended [startInstallation] awaits
    settles, a child calls [nextStep], [resetState] runs, or the migration
    library invokes one of the callbacks. *)

Inductive Callback : Type :=
| call_userApproval (msg : string)
| call_info (msg : string)
| call_error (msg : string)
| call_txComplete (msg txHash : string) (txCost : number)
| call_migrationAborted (err : Error)
| call_migrationComplete (res : DAOMigrationResult)
| call_getState
| call_setState (st : any)
| call_cleanState.

Definition invoke (c : Callback) : M World unit :=
  match c with
  | call_userApproval msg => userApproval msg ;; ret tt
  | call_info msg => info msg
  | call_error msg => error msg
  | call_txComplete msg txHash txCost => txComplete msg txHash txCost ;; ret tt
  | call_migrationAborted err => migrationAborted err
  | call_migrationComplete res => migrationComplete res
  | call_getState => getState ;; ret tt
  | call_setState st => setState st
  | call_cleanState => cleanState
  end.

Inductive Event : Type :=
| do_startInstallation
| getWeb3_settled (provider : getWeb3_result)
| do_nextStep
| do_resetState
| do_callback (c : Callback).

Definition handle (e : Event) (w : World) : World :=
  match e with
  | do_startInstallation => exec startInstallation w
  | getWeb3_settled provider =>
      match awaiting_getWeb3 w with
      | O => w
      | S _ => exec (startInstallation_resumed provider) w
      end
  | do_nextStep => exec nextStep w
  | do_resetState => exec resetState w
  | do_callback c => exec (invoke c) w
  end.

Definition run (es : list Event) (w : World) : World :=
  fold_left (fun w e => handle e w) es w.

(** The worlds a mounted component can be in. *)
Inductive reachable : World -> Prop :=
| reachable_mount storage : reachable (mount storage)
| reachable_handle e w : reachable w -> reachable (handle e w).

(** *** Observations *)

Definition is_host_call (e : Effect) : bool :=
  match e with
  | onStart | onComplete _ | onAbort _ | onStop => true
  | console_log _ | migrateDAO _ => false
  end.

Definition is_migrateDAO (e : Effect) : bool :=
  match e with
  | migrateDAO _ => true
  | _ => false
  end.

Definition logged_line (e : Effect) : option AnyLogLine :=
  match e with
  | console_log (ConsoleLogLine l) => Some l
  | _ => None
  end.

(** The calls of [onStart], [onComplete], [onAbort] and [onStop] so far. *)
Definition host_calls (w : World) : list Effect :=
  List.filter is_host_call (effects w).

(** The calls of [migrateDAO] so far. *)
Definition engine_calls (w : World) : list Effect :=
  List.filter is_migrateDAO (effects w).

(** The log lines written to the console so far. *)
Definition console_lines (w : World) : list AnyLogLine :=
  omap logged_line (effects w).

(** Whether the browser asks before the page is left. *)
Definition leave_guard (w : World) : bool :=
  match onbeforeunload w with
  | Some (Some _) => true
  | _ => false
  end.

Definition terminal (s : Z) : Prop := s = STEP.Completed \/ s = STEP.Failed.

(** How a provider resolution fails: [getWeb3] throws, or yields nothing. *)
Definition resolution_fails (provider : getWeb3_result) : Prop :=
  match provider with
  | getWeb3_rejects _ => True
  | getWeb3_resolves None => True
  | getWeb3_resolves (Some _) => False
  end.

(** The three callbacks that only report: [info], [error], [txComplete]. *)
Inductive Report : Type :=
| report_info (msg : string)
| report_error (msg : string)
| report_txComplete (msg txHash : string) (txCost : number).

Definition report_callback (r : Report) : Callback :=
  match r with
  | report_info msg => call_info msg
  | report_error msg => call_error msg
  | report_txComplete msg txHash txCost => call_txComplete msg txHash txCost
  end.

(** The log line each of them constructs. *)
Definition report_line (r : Report) : AnyLogLine :=
  match r with
  | report_info msg => LogInfo msg
  | report_error msg => LogError msg
  | report_txComplete msg txHash txCost => LogTransactionResult msg txHash txCost
  end.

Definition report_events (rs : list Report) : list Event :=
  map (fun r => do_callback (report_callback r)) rs.





Definition is_resetState (e : Event) : bool :=
  match e with
  | do_resetState => true
  | _ => false
  end.

(** *** The claims of the specification, as written, where the component
    does otherwise *)

(** Reports are appended to the log lines of the session. *)
Definition reports_appended_to_session_log (rs : list Report) (w : World) : Prop :=
  fullLogLines (react (run (report_events rs) w))
  = fullLogLines (react w) ++ map report_line rs.

(** [migrationAborted] appends its line to the log of the session, clears
    the leave-page guard, fails the phase and calls [onAbort], [onStop]. *)
Definition migrationAborted_as_specified (err : Error) (w : World) : Prop :=
  let w' := exec (migrationAborted err) w in
  fullLogLines (react w') = fullLogLines (react w) ++ [LogMigrationAborted err]
  /\ leave_guard w' = false
  /\ step (react w') = STEP.Failed
  /\ host_calls w' = host_calls w ++ [onAbort err; onStop].


(** In a terminal phase a terminal callback changes neither the phase nor
    the calls made to the host. *)
Definition terminal_callbacks_guarded (w : World) : Prop :=
  terminal (step (react w)) ->
  forall c, (exists err, c = call_migrationAborted err)
            \/ (exists res, c = call_migrationComplete res) ->
  step (react (exec (invoke c) w)) = step (react w)
  /\ host_calls (exec (invoke c) w) = host_calls w.

(** * Facts *)

Ltac by_effects :=
  unfold host_calls, engine_calls, console_lines;
  cbn;
  repeat (rewrite ?List.filter_app, ?omap_app; cbn);
  rewrite <- ?app_assoc, ?app_nil_r; cbn.

Lemma exec_bind {A B} (m : M World A) (k : A -> M World B) w :
  exec (bind m k) w = exec (k (eval m w)) (exec m w).
Proof. unfold exec, eval, bind. destruct (m w); reflexivity. Qed.

Lemma run_cons e es w : run (e :: es) w = run es (handle e w).
Proof. reflexivity. Qed.


Lemma getState_pure w : exec getState w = w.
Proof.
  unfold exec, getState, bind, localStorage_getItem. cbn.
  destruct (localStorage w !! DAO_MIGRATION_STATE) as [text|]; [|reflexivity].
  destruct (truthy text); [|reflexivity].
  destruct (JSON_parse text); reflexivity.
Qed.

Lemma invoke_getState w : exec (invoke call_getState) w = w.
Proof.
  cbn [invoke]. rewrite exec_bind. cbn [exec ret snd]. apply getState_pure.
Qed.

(** All that [nextStep] does is to write its console message. *)
Lemma nextStep_exec w :
  exec nextStep w = exec (emit (console_log (ConsoleText "Go to next step"))) w.
Proof. destruct w as [[] ? ? ? ? ?]; reflexivity. Qed.

(** The only thing a click does outside the phase [Waiting] is to write its
    first console message. *)
Lemma startInstallation_guarded w :
  step (react w) <> STEP.Waiting ->
  exec startInstallation w
  = exec (emit (console_log (ConsoleText "Starting Installation"))) w.
Proof.
  intros Hstep. unfold startInstallation.
  rewrite exec_bind. rewrite exec_bind. cbn [exec eval read_step emit fst snd react].
  destruct (Z.eqb_spec (step (react w)) STEP.Waiting) as [E|_]; [contradiction|].
  reflexivity.
Qed.

(** In the phase [Waiting] a click is suspended at its [await]. *)
Lemma startInstallation_suspended w :
  step (react w) = STEP.Waiting ->
  exec startInstallation w
  = exec suspend_at_getWeb3
         (exec (emit (console_log (ConsoleText "Starting Installation"))) w).
Proof.
  intros Hstep. unfold startInstallation.
  rewrite exec_bind. rewrite exec_bind. cbn [exec eval read_step emit fst snd react].
  rewrite Hstep. reflexivity.
Qed.

(** What the resumed [startInstallation] does without a provider. *)
Lemma startInstallation_resumed_without_provider provider w :
  resolution_fails provider ->
  noWeb3Open (react (exec (startInstallation_resumed provider) w)) = true
  /\ step (react (exec (startInstallation_resumed provider) w)) = step (react w)
  /\ engine_calls (exec (startInstallation_resumed provider) w) = engine_calls w
  /\ host_calls (exec (startInstallation_resumed provider) w) = host_calls w
  /\ onbeforeunload (exec (startInstallation_resumed provider) w) = onbeforeunload w.
Proof.
  intros Hfail. unfold startInstallation_resumed.
  destruct provider as [e|[web3|]]; [|destruct Hfail|];
    rewrite !exec_bind; cbn; repeat split; by_effects; reflexivity.
Qed.

(** What it does with one: the migration starts. *)
Lemma startInstallation_resumed_with_provider web3 w :
  step (react (exec (startInstallation_resumed (getWeb3_resolves (Some web3))) w))
  = STEP.Migrating
  /\ fullLogLines
       (react (exec (startInstallation_resumed (getWeb3_resolves (Some web3))) w)) = []
  /\ leave_guard (exec (startInstallation_resumed (getWeb3_resolves (Some web3))) w)
     = true
  /\ engine_calls (exec (startInstallation_resumed (getWeb3_resolves (Some web3))) w)
     = engine_calls w ++ [migrateDAO dao]
  /\ host_calls (exec (startInstallation_resumed (getWeb3_resolves (Some web3))) w)
     = host_calls w ++ [onStart].
Proof.
  unfold startInstallation_resumed. rewrite !exec_bind. cbn.
  repeat split; by_effects; reflexivity.
Qed.

(** What it leaves alone whatever the outcome: the cost so far, the
    storage, and the log lines unless it empties them. *)
Lemma startInstallation_resumed_frame provider w :
  ethSpent (react (exec (startInstallation_resumed provider) w)) = ethSpent (react w)
  /\ localStorage (exec (startInstallation_resumed provider) w) = localStorage w
  /\ (fullLogLines (react (exec (startInstallation_resumed provider) w))
        = fullLogLines (react w)
      \/ fullLogLines (react (exec (startInstallation_resumed provider) w)) = [])
  /\ (minimalLogLines (react (exec (startInstallation_resumed provider) w))
        = minimalLogLines (react w)
      \/ minimalLogLines (react (exec (startInstallation_resumed provider) w)) = []).
Proof.
  unfold startInstallation_resumed.
  destruct provider as [e|[web3|]]; rewrite !exec_bind; cbn; auto.
Qed.

(** A click changes the console and the count of suspended calls only. *)
Lemma startInstallation_react w : react (exec startInstallation w) = react w.
Proof.
  destruct (Z.eq_dec (step (react w)) STEP.Waiting) as [E|E].
  - rewrite (startInstallation_suspended w E). reflexivity.
  - rewrite (startInstallation_guarded w E). reflexivity.
Qed.

(** Outside the phase [Waiting], and with no call of [startInstallation]
    suspended, an event other than [resetState] neither returns to [Waiting]
    nor suspends a call nor calls [migrateDAO]. *)
Lemma handle_while_busy e w :
  is_resetState e = false ->
  step (react w) <> STEP.Waiting ->
  awaiting_getWeb3 w = 0 ->
  step (react (handle e w)) <> STEP.Waiting
  /\ awaiting_getWeb3 (handle e w) = 0
  /\ engine_calls (handle e w) = engine_calls w.
Proof.
  intros Hreset Hstep Hnone. destruct e as [|provider| | |c]; cbn [handle].
  - rewrite (startInstallation_guarded w Hstep).
    split; [exact Hstep | split; [exact Hnone | by_effects; reflexivity]].
  - rewrite Hnone. split; [exact Hstep | split; [exact Hnone | reflexivity]].
  - rewrite nextStep_exec.
    split; [exact Hstep | split; [exact Hnone | by_effects; reflexivity]].
  - discriminate Hreset.
  - destruct c; try rewrite invoke_getState;
      (split; [first [exact Hstep | cbn; discriminate]
              | split; [exact Hnone | by_effects; reflexivity]]).
Qed.

Lemma run_while_busy es w :
  forallb (fun e => negb (is_resetState e)) es = true ->
  step (react w) <> STEP.Waiting ->
  awaiting_getWeb3 w = 0 ->
  step (react (run es w)) <> STEP.Waiting
  /\ engine_calls (run es w) = engine_calls w.
Proof.
  revert w. induction es as [|e es IH]; intros w Hes Hstep Hnone.
  - split; [exact Hstep | reflexivity].
  - cbn [forallb] in Hes. apply andb_prop in Hes as [He Hes].
    apply negb_true_iff in He.
    destruct (handle_while_busy e w He Hstep Hnone) as (Hstep' & Hnone' & Hcalls).
    rewrite run_cons. destruct (IH _ Hes Hstep' Hnone') as [H1 H2].
    split; [exact H1 | congruence].
Qed.

(** The guard of [startInstallation]: outside the phase [Waiting] the call
    returns at its guard. It changes no React state, calls neither
    [migrateDAO] nor the host, writes or clears no log line, is not
    suspended, and leaves the leave-page handler, the storage and the
    promises as they are. And when no earlier call is still suspended at its
    [await], nothing that happens from such a phase calls [migrateDAO] as
    long as [resetState] does not run. *)
Theorem startInstallation_noop_unless_Waiting w :
  step (react w) <> STEP.Waiting ->
  (react (exec startInstallation w) = react w
   /\ engine_calls (exec startInstallation w) = engine_calls w
   /\ host_calls (exec startInstallation w) = host_calls w
   /\ console_lines (exec startInstallation w) = console_lines w
   /\ onbeforeunload (exec startInstallation w) = onbeforeunload w
   /\ localStorage (exec startInstallation w) = localStorage w
   /\ promises (exec startInstallation w) = promises w
   /\ awaiting_getWeb3 (exec startInstallation w) = awaiting_getWeb3 w)
  /\ (awaiting_getWeb3 w = 0 ->
      forall es,
        forallb (fun e => negb (is_resetState e)) es = true ->
        engine_calls (run (do_startInstallation :: es) w) = engine_calls w).
Proof.
  intros Hstep. split.
  - rewrite (startInstallation_guarded w Hstep).
    repeat split; by_effects; reflexivity.
  - intros Hnone es Hes.
    apply (run_while_busy (do_startInstallation :: es) w);
      [cbn; exact Hes | exact Hstep | exact Hnone].
Qed.

(** C2, where the component falls short of it: the guard of
    [startInstallation] is read before the [await] and not again after it.
    Two calls made on a mounted component while the phase is [Waiting] (two
    clicks before the provider is there) both pass the guard and are both
    suspended. When the provider of the first arrives the phase becomes
    [Migrating] and [migrateDAO] is called; when the provider of the second
    arrives, in the phase [Migrating], [onStart] and [migrateDAO] are called
    again: two migrations are in flight in one session. *)
Theorem startInstallation_twice_before_provider storage web3a web3b :
  step (react (run [do_startInstallation; do_startInstallation] (mount storage)))
  = STEP.Waiting
  /\ awaiting_getWeb3 (run [do_startInstallation; do_startInstallation]
                         (mount storage)) = 2
  /\ step (react (run [do_startInstallation; do_startInstallation;
                       getWeb3_settled (getWeb3_resolves (Some web3a))]
                      (mount storage)))
     = STEP.Migrating
  /\ engine_calls (run [do_startInstallation; do_startInstallation;
                        getWeb3_settled (getWeb3_resolves (Some web3a))]
                       (mount storage))
     = [migrateDAO dao]
  /\ engine_calls (run [do_startInstallation; do_startInstallation;
                        getWeb3_settled (getWeb3_resolves (Some web3a));
                        getWeb3_settled (getWeb3_resolves (Some web3b))]
                       (mount storage))
     = [migrateDAO dao; migrateDAO dao]
  /\ host_calls (run [do_startInstallation; do_startInstallation;
                      getWeb3_settled (getWeb3_resolves (Some web3a));
                      getWeb3_settled (getWeb3_resolves (Some web3b))]
                     (mount storage))
     = [onStart; onStart]
  /\ step (react (run [do_startInstallation; do_startInstallation;
                       getWeb3_settled (getWeb3_resolves (Some web3a));
                       getWeb3_settled (getWeb3_resolves (Some web3b))]
                      (mount storage)))
     = STEP.Migrating.
Proof.
  repeat split.
Qed.

(** C3: when [startInstallation] is called in the phase [Waiting] and the
    provider resolution fails (the awaited [getWeb3] throws, or yields
    nothing), it sets [noWeb3Open], the phase is still [Waiting] and
    [migrateDAO] is not called; the host is not called and the leave-page
    handler is not installed either. More generally a suspended call that
    resumes without a provider sets [noWeb3Open] and leaves the phase what
    it is at that moment. *)
Theorem startInstallation_without_provider provider w :
  step (react w) = STEP.Waiting ->
  resolution_fails provider ->
  (noWeb3Open (react (run [do_startInstallation; getWeb3_settled provider] w)) = true
   /\ step (react (run [do_startInstallation; getWeb3_settled provider] w))
      = STEP.Waiting
   /\ engine_calls (run [do_startInstallation; getWeb3_settled provider] w)
      = engine_calls w
   /\ host_calls (run [do_startInstallation; getWeb3_settled provider] w)
      = host_calls w
   /\ onbeforeunload (run [do_startInstallation; getWeb3_settled provider] w)
      = onbeforeunload w)
  /\ (forall w', awaiting_getWeb3 w' <> 0 ->
        noWeb3Open (react (handle (getWeb3_settled provider) w')) = true
        /\ step (react (handle (getWeb3_settled provider) w')) = step (react w')
        /\ engine_calls (handle (getWeb3_settled provider) w') = engine_calls w').
Proof.
  intros Hstep Hfail. split.
  - rewrite !run_cons. cbn [run fold_left handle].
    rewrite (startInstallation_suspended w Hstep).
    cbn [exec suspend_at_getWeb3 with_awaiting_getWeb3 awaiting_getWeb3 snd].
    destruct (startInstallation_resumed_without_provider provider
                (exec suspend_at_getWeb3
                   (exec (emit (console_log (ConsoleText "Starting Installation"))) w))
                Hfail) as (H1 & H2 & H3 & H4 & H5).
    cbn [exec suspend_at_getWeb3 with_awaiting_getWeb3 snd] in H1, H2, H3, H4, H5.
    rewrite H1, H2, H3, H4, H5.
    repeat split; try exact Hstep; by_effects; reflexivity.
  - intros w' Hsome. cbn [handle].
    destruct (awaiting_getWeb3 w') as [|n]; [contradiction|].
    destruct (startInstallation_resumed_without_provider provider w' Hfail)
      as (H1 & H2 & H3 & _).
    auto.
Qed.

(** C10: the updater of [nextStep] returns the value of [step++], which is
    the step it was given, so however often [nextStep] runs the phase (and
    all other React state) stays what it was. *)
Theorem nextStep_keeps_step (n : nat) w :
  (forall s, fst (postfix_increment s) = s /\ snd (postfix_increment s) = (s + 1)%Z)
  /\ step (react (exec nextStep w)) = step (react w)
  /\ step (react (run (repeat do_nextStep n) w)) = step (react w)
  /\ react (run (repeat do_nextStep n) w) = react w.
Proof.
  assert (Hrun : react (run (repeat do_nextStep n) w) = react w).
  { revert w. induction n as [|n IH]; intros w; [reflexivity|].
    cbn [repeat]. rewrite run_cons, IH. cbn [handle].
    rewrite nextStep_exec. reflexivity. }
  split; [intros s; split; reflexivity|].
  split; [rewrite nextStep_exec; reflexivity|].
  split; [rewrite Hrun; reflexivity | exact Hrun].
Qed.

(** C6: [migrationComplete] replaces the leave-page handler by one that
    asks nothing, stores the result, sets the phase to [Completed] and calls
    the host's [onComplete] with the result and then [onStop]; these two
    host calls are the last two things the component does. *)
Theorem migrationComplete_effect res w :
  leave_guard (exec (migrationComplete res) w) = false
  /\ onbeforeunload (exec (migrationComplete res) w) = Some None
  /\ result (react (exec (migrationComplete res) w)) = Some res
  /\ step (react (exec (migrationComplete res) w)) = STEP.Completed
  /\ host_calls (exec (migrationComplete res) w)
     = host_calls w ++ [onComplete res; onStop]
  /\ effects (exec (migrationComplete res) w)
     = effects w ++ [onComplete res; onStop].
Proof.
  repeat split; by_effects; reflexivity.
Qed.

(** C5, as the component has it: [migrationAborted] writes a
    [LogMigrationAborted] line to the console, leaves the log lines of the
    session as they are, sets the phase to [Failed], and calls the host's
    [onAbort] with the error and then [onStop], once each. *)
Theorem migrationAborted_effect err w :
  console_lines (exec (migrationAborted err) w)
  = console_lines w ++ [LogMigrationAborted err]
  /\ fullLogLines (react (exec (migrationAborted err) w)) = fullLogLines (react w)
  /\ step (react (exec (migrationAborted err) w)) = STEP.Failed
  /\ host_calls (exec (migrationAborted err) w)
     = host_calls w ++ [onAbort err; onStop].
Proof.
  repeat split; by_effects; reflexivity.
Qed.

Lemma report_step r w :
  console_lines (handle (do_callback (report_callback r)) w)
  = console_lines w ++ [report_line r]
  /\ fullLogLines (react (handle (do_callback (report_callback r)) w))
     = fullLogLines (react w).
Proof.
  destruct r; cbn [handle report_callback invoke report_line];
    rewrite ?exec_bind; split; by_effects; reflexivity.
Qed.

(** C1, as the component has it: each call of [info], [error] or
    [txComplete] writes its one log line ([LogInfo], [LogError],
    [LogTransactionResult]) to the console and nowhere else. After [N] such
    calls the console holds [N] more log lines, in the order of the calls,
    and the log lines of the session are the ones it had before. *)
Theorem reports_written_to_console (rs : list Report) w :
  console_lines (run (report_events rs) w) = console_lines w ++ map report_line rs
  /\ length (console_lines (run (report_events rs) w))
     = length (console_lines w) + length rs
  /\ fullLogLines (react (run (report_events rs) w)) = fullLogLines (react w).
Proof.
  assert (H : console_lines (run (report_events rs) w)
              = console_lines w ++ map report_line rs
              /\ fullLogLines (react (run (report_events rs) w))
                 = fullLogLines (react w)).
  { revert w. induction rs as [|r rs IH]; intros w.
    - cbn. rewrite app_nil_r. auto.
    - cbn [report_events map]. rewrite run_cons.
      destruct (report_step r w) as [Hc Hl].
      destruct (IH (handle (do_callback (report_callback r)) w)) as [IHc IHl].
      unfold report_events in IHc, IHl.
      rewrite IHc, IHl, Hc, Hl, <- app_assoc. auto. }
  destruct H as [Hc Hl]. repeat split; [exact Hc | | exact Hl].
  rewrite Hc, length_app, length_map. reflexivity.
Qed.

(** C7, as the component has it: from a terminal phase, with no call of
    [startInstallation] suspended at its [await], every event other than
    [resetState] leads to a terminal phase, and [resetState] leads to
    [Waiting]; but the terminal callbacks look at no phase: a later
    [migrationAborted] sets the phase to [Failed] and a later
    [migrationComplete] sets it to [Completed], and each calls the host
    again. *)
Theorem terminal_phase_transitions w :
  terminal (step (react w)) ->
  (awaiting_getWeb3 w = 0 ->
   forall e, is_resetState e = false -> terminal (step (react (handle e w))))
  /\ step (react (exec resetState w)) = STEP.Waiting
  /\ (forall err,
        step (react (exec (migrationAborted err) w)) = STEP.Failed
        /\ host_calls (exec (migrationAborted err) w)
           = host_calls w ++ [onAbort err; onStop])
  /\ (forall res,
        step (react (exec (migrationComplete res) w)) = STEP.Completed
        /\ host_calls (exec (migrationComplete res) w)
           = host_calls w ++ [onComplete res; onStop]).
Proof.
  intros Hterm.
  assert (Hbusy : step (react w) <> STEP.Waiting).
  { destruct Hterm as [-> | ->]; discriminate. }
  split; [|split; [reflexivity|split]].
  - intros Hnone e He. destruct e as [|provider| | |c]; cbn [handle].
    + rewrite (startInstallation_guarded w Hbusy). exact Hterm.
    + rewrite Hnone. exact Hterm.
    + rewrite nextStep_exec. exact Hterm.
    + discriminate He.
    + destruct c; try rewrite invoke_getState; try exact Hterm.
      * right. reflexivity.
      * left. reflexivity.
  - intros err. split; by_effects; reflexivity.
  - intros res. split; by_effects; reflexivity.
Qed.





Lemma handle_log_lines e w :
  (fullLogLines (react (handle e w)) = fullLogLines (react w)
   \/ fullLogLines (react (handle e w)) = [])
  /\ (minimalLogLines (react (handle e w)) = minimalLogLines (react w)
      \/ minimalLogLines (react (handle e w)) = []).
Proof.
  destruct e as [|provider| | |c]; cbn [handle].
  - rewrite startInstallation_react. auto.
  - destruct (awaiting_getWeb3 w); [auto|].
    destruct (startInstallation_resumed_frame provider w) as (_ & _ & H1 & H2). auto.
  - rewrite nextStep_exec. auto.
  - cbn. auto.
  - destruct c; try rewrite invoke_getState; cbn; auto.
Qed.

(** No handler and no callback ever puts a line into [fullLogLines] or
    [minimalLogLines]: on a mounted component both stay empty. *)
Lemma reachable_log_lines_empty w :
  reachable w -> fullLogLines (react w) = [] /\ minimalLogLines (react w) = [].
Proof.
  induction 1 as [storage|e w _ [IH1 IH2]].
  - split; reflexivity.
  - destruct (handle_log_lines e w) as [[H1|H1] [H2|H2]]; split; congruence.
Qed.

(** Running events keeps a world reachable. *)
Lemma reachable_run es w : reachable w -> reachable (run es w).
Proof.
  revert w. induction es as [|e es IH]; intros w Hw; [exact Hw|].
  rewrite run_cons. apply IH. apply reachable_handle. exact Hw.
Qed.


Lemma truthy_nonempty text : text <> EmptyString -> truthy text = true.
Proof. destruct text; [congruence | reflexivity]. Qed.

Lemma getState_without_checkpoint w :
  localStorage w !! DAO_MIGRATION_STATE = None ->
  eval getState w = Returns empty_object.
Proof.
  intros H. unfold eval, getState, bind, localStorage_getItem. rewrite H. reflexivity.
Qed.

(** C8: a checkpoint that survives JSON ([JSON.stringify] gives a text,
    which is not empty and which [JSON.parse] reads back as the checkpoint)
    is what [getState] returns after [setState] stored it, whatever was
    stored before; and after [cleanState], as whenever nothing is stored,
    [getState] returns the empty object. *)
Theorem checkpoint_roundtrip (blob : any) (text : string) :
  JSON_stringify blob = Some text ->
  JSON_parse text = Some blob ->
  text <> EmptyString ->
  (forall w, eval getState (exec (setState blob) w) = Returns blob)
  /\ (forall w, eval getState (exec cleanState w) = Returns empty_object)
  /\ (forall w, localStorage w !! DAO_MIGRATION_STATE = None ->
                eval getState w = Returns empty_object).
Proof.
  intros Hs Hp Hne. split; [|split].
  - intros w. unfold eval, getState, bind, localStorage_getItem.
    cbn. rewrite Hs. cbn. rewrite lookup_insert_eq.
    rewrite (truthy_nonempty text Hne), Hp. reflexivity.
  - intros w. apply getState_without_checkpoint. cbn. apply lookup_delete_eq.
  - intros w. apply getState_without_checkpoint.
Qed.

(** * More about the component *)

(** The button the component renders: the install button, disabled outside
    the phase [Waiting], or the button that opens Alchemy once the
    migration completed. *)
Inductive Button : Type :=
| InstallOrganisation (disabled : bool)
| OpenAlchemy.

Definition render_button (s : State) : Button :=
  if negb (step s =? STEP.Completed)%Z
  then InstallOrganisation (negb (step s =? STEP.Waiting)%Z)
  else OpenAlchemy.

Definition openAlchemy : M World unit :=
  emit (console_log (ConsoleText "Open Alchemy")).

(** A click on the rendered button runs its [onClick]; a disabled button
    dispatches no click. *)
Definition click_button : M World unit :=
  fun w =>
    match render_button (react w) with
    | InstallOrganisation false => startInstallation w
    | InstallOrganisation true => (tt, w)
    | OpenAlchemy => openAlchemy w
    end.

Definition is_onStart (e : Effect) : bool :=
  match e with onStart => true | _ => false end.

Definition is_onStop (e : Effect) : bool :=
  match e with onStop => true | _ => false end.

Definition is_onComplete (e : Effect) : bool :=
  match e with onComplete _ => true | _ => false end.

Definition is_onAbort (e : Effect) : bool :=
  match e with onAbort _ => true | _ => false end.

(** How often the component did something of a kind. *)
Definition times (kind : Effect -> bool) (w : World) : nat :=
  length (List.filter kind (effects w)).

Definition is_migrationComplete (e : Event) : bool :=
  match e with
  | do_callback (call_migrationComplete _) => true
  | _ => false
  end.

Definition writes_checkpoint (e : Event) : bool :=
  match e with
  | do_callback (call_setState _) | do_callback call_cleanState => true
  | _ => false
  end.

(** X1: a call of [startInstallation] in the phase [Waiting] whose
    provider is found installs the leave-page prompt, empties both logs,
    clears the result, sets the phase to [Migrating] and, after its console
    message, calls [onStart] and then [migrateDAO] with the [dao] prop. It
    clears neither [noWeb3Open] nor [ethSpent]: the flag of an earlier
    failed attempt and the cost of an earlier migration stay. *)
Theorem startInstallation_with_provider web3 w :
  step (react w) = STEP.Waiting ->
  effects (run [do_startInstallation; getWeb3_settled (getWeb3_resolves (Some web3))] w)
  = effects w ++ [console_log (ConsoleText "Starting Installation");
                  onStart; migrateDAO dao]
  /\ step (react (run [do_startInstallation;
                       getWeb3_settled (getWeb3_resolves (Some web3))] w))
     = STEP.Migrating
  /\ onbeforeunload (run [do_startInstallation;
                          getWeb3_settled (getWeb3_resolves (Some web3))] w)
     = Some (Some leave_prompt)
  /\ fullLogLines (react (run [do_startInstallation;
                               getWeb3_settled (getWeb3_resolves (Some web3))] w)) = []
  /\ minimalLogLines (react (run [do_startInstallation;
                                  getWeb3_settled (getWeb3_resolves (Some web3))] w)) = []
  /\ result (react (run [do_startInstallation;
                         getWeb3_settled (getWeb3_resolves (Some web3))] w)) = None
  /\ noWeb3Open (react (run [do_startInstallation;
                             getWeb3_settled (getWeb3_resolves (Some web3))] w))
     = noWeb3Open (react w)
  /\ ethSpent (react (run [do_startInstallation;
                           getWeb3_settled (getWeb3_resolves (Some web3))] w))
     = ethSpent (react w)
  /\ awaiting_getWeb3 (run [do_startInstallation;
                            getWeb3_settled (getWeb3_resolves (Some web3))] w)
     = awaiting_getWeb3 w.
Proof.
  intros Hstep. rewrite !run_cons. cbn [run fold_left handle].
  rewrite (startInstallation_suspended w Hstep).
  cbn [exec suspend_at_getWeb3 with_awaiting_getWeb3 awaiting_getWeb3 snd].
  unfold startInstallation_resumed. rewrite !exec_bind. cbn.
  rewrite <- !app_assoc. cbn. repeat split.
Qed.

(** The phase after a resumed [startInstallation]: [Migrating], or what it
    was. *)
Lemma startInstallation_resumed_step provider w :
  step (react (exec (startInstallation_resumed provider) w)) = STEP.Migrating
  \/ react (exec (startInstallation_resumed provider) w)
     = mkState (step (react w)) (txList (react w)) true (fullLogLines (react w))
               (minimalLogLines (react w)) (ethSpent (react w)) (result (react w))
               (state (react w)).
Proof.
  unfold startInstallation_resumed.
  destruct provider as [e|[web3|]]; rewrite !exec_bind; cbn; auto.
Qed.

Lemma handle_keeps_off_Waiting e w :
  is_resetState e = false ->
  step (react w) <> STEP.Waiting ->
  step (react (handle e w)) <> STEP.Waiting.
Proof.
  intros Hreset Hstep. destruct e as [|provider| | |c]; cbn [handle].
  - rewrite startInstallation_react. exact Hstep.
  - destruct (awaiting_getWeb3 w); [exact Hstep|].
    destruct (startInstallation_resumed_step provider w) as [-> | ->];
      [discriminate | exact Hstep].
  - rewrite nextStep_exec. exact Hstep.
  - discriminate Hreset.
  - destruct c; try rewrite invoke_getState;
      first [exact Hstep | cbn; discriminate].
Qed.

(** X2: the install button is enabled in the phase [Waiting] and in no
    other; and once the phase is not [Waiting], nothing but [resetState]
    brings it back: whatever happens, also when suspended calls of
    [startInstallation] resume, the button is never enabled again. *)
Theorem install_button_enabled_in_Waiting_only w :
  step (react w) <> STEP.Waiting ->
  (forall s, render_button s = InstallOrganisation false <-> step s = STEP.Waiting)
  /\ (forall es,
        forallb (fun e => negb (is_resetState e)) es = true ->
        step (react (run es w)) <> STEP.Waiting
        /\ render_button (react (run es w)) <> InstallOrganisation false).
Proof.
  intros Hstep.
  assert (Hbutton : forall s,
            render_button s = InstallOrganisation false <-> step s = STEP.Waiting).
  { intros s. unfold render_button.
    destruct (Z.eqb_spec (step s) STEP.Completed) as [Ec|Ec];
      destruct (Z.eqb_spec (step s) STEP.Waiting) as [Ew|Ew]; cbn;
      split; intros H; try congruence; try discriminate.
    rewrite Ec in Ew. discriminate. }
  split; [exact Hbutton|].
  intros es. revert w Hstep. induction es as [|e es IH]; intros w Hstep Hes.
  - cbn. split; [exact Hstep | rewrite Hbutton; exact Hstep].
  - cbn [forallb] in Hes. apply andb_prop in Hes as [He Hes].
    apply negb_true_iff in He. rewrite run_cons.
    apply IH; [apply handle_keeps_off_Waiting; assumption | exact Hes].
Qed.

Lemma click_button_cases w :
  (step (react w) = STEP.Waiting /\ exec click_button w = exec startInstallation w)
  \/ (step (react w) = STEP.Completed /\ exec click_button w = exec openAlchemy w)
  \/ (step (react w) <> STEP.Waiting /\ step (react w) <> STEP.Completed
      /\ exec click_button w = w).
Proof.
  unfold exec, click_button, render_button.
  destruct (Z.eqb_spec (step (react w)) STEP.Completed) as [Ec|Ec];
    destruct (Z.eqb_spec (step (react w)) STEP.Waiting) as [Ew|Ew]; cbn [negb]; auto.
Qed.

(** A click on the button as rendered calls [startInstallation] in
    the phase [Waiting] and does nothing at all in the phases [Migrating]
    and [Failed]; in no phase does the click itself change the React state,
    call the host or call [migrateDAO]. *)
Theorem click_button_effect w :
  (step (react w) = STEP.Waiting -> exec click_button w = exec startInstallation w)
  /\ (step (react w) = STEP.Migrating \/ step (react w) = STEP.Failed ->
      exec click_button w = w)
  /\ react (exec click_button w) = react w
  /\ host_calls (exec click_button w) = host_calls w
  /\ engine_calls (exec click_button w) = engine_calls w.
Proof.
  assert (Hstart : host_calls (exec startInstallation w) = host_calls w
                   /\ engine_calls (exec startInstallation w) = engine_calls w).
  { destruct (Z.eq_dec (step (react w)) STEP.Waiting) as [E|E].
    - rewrite (startInstallation_suspended w E). split; by_effects; reflexivity.
    - rewrite (startInstallation_guarded w E). split; by_effects; reflexivity. }
  destruct Hstart as [Hhost Hengine].
  destruct (click_button_cases w) as [[Ew ->]|[[Ec ->]|(Ew & Ec & ->)]].
  - split; [reflexivity|]. split; [rewrite Ew; intros [H|H]; discriminate H|].
    rewrite startInstallation_react. auto.
  - split; [rewrite Ec; intros H; discriminate H|].
    split; [rewrite Ec; intros [H|H]; discriminate H|].
    repeat split; by_effects; reflexivity.
  - split; [intros H; contradiction|]. auto.
Qed.

(** An event settles no promise that exists already: whatever state a
    promise is in, it is in afterwards. *)
Lemma handle_keeps_promises e w p x :
  promises w !! p = Some x -> promises (handle e w) !! p = Some x.
Proof.
  intros Hp.
  assert (Hfresh : (promises w ++ [Pending]) !! p = Some x)
    by (apply lookup_app_l_Some; exact Hp).
  assert (Hlt : p < length (promises w)) by (eapply lookup_lt_Some; exact Hp).
  destruct e as [|provider| | |c]; cbn [handle].
  - destruct (Z.eq_dec (step (react w)) STEP.Waiting) as [E|E].
    + rewrite (startInstallation_suspended w E). exact Hp.
    + rewrite (startInstallation_guarded w E). exact Hp.
  - destruct (awaiting_getWeb3 w); [exact Hp|].
    unfold startInstallation_resumed.
    destruct provider as [e|[web3|]]; rewrite !exec_bind; exact Hp.
  - rewrite nextStep_exec. exact Hp.
  - exact Hp.
  - destruct c; try rewrite invoke_getState; try exact Hp.
    + cbn [invoke]. rewrite !exec_bind. exact Hfresh.
    + cbn [invoke]. rewrite !exec_bind. cbn.
      rewrite lookup_app_r by lia. rewrite Nat.sub_diag. cbn.
      rewrite list_lookup_insert_ne by lia. exact Hfresh.
Qed.

Lemma run_keeps_promises es w p x :
  promises w !! p = Some x -> promises (run es w) !! p = Some x.
Proof.
  revert w. induction es as [|e es IH]; intros w Hp; [exact Hp|].
  rewrite run_cons. apply IH. apply handle_keeps_promises. exact Hp.
Qed.

(** X3: [userApproval] returns a new promise, pending, and hands its
    resolver to [addLogLine] only, which prints it. Nothing the component
    does afterwards settles that promise: whatever events follow, it is
    still pending. *)
Theorem userApproval_stays_pending msg es w :
  eval (userApproval msg) w = length (promises w)
  /\ promises (exec (userApproval msg) w) = promises w ++ [Pending]
  /\ console_lines (exec (userApproval msg) w)
     = console_lines w ++ [LogUserApproval msg (length (promises w))]
  /\ react (exec (userApproval msg) w) = react w
  /\ promises (run es (exec (userApproval msg) w)) !! eval (userApproval msg) w
     = Some Pending.
Proof.
  assert (Hnew : promises (exec (userApproval msg) w) !! length (promises w)
                 = Some Pending).
  { unfold userApproval. rewrite !exec_bind. cbn.
    rewrite lookup_app_r by lia. rewrite Nat.sub_diag. reflexivity. }
  split; [reflexivity|]. split; [reflexivity|].
  split; [by_effects; reflexivity|]. split; [reflexivity|].
  apply run_keeps_promises. exact Hnew.
Qed.

(** X4: the promise [txComplete] returns is a new one and is fulfilled
    when the call returns, after the cost was added and the line written;
    the promises that existed are as they were. *)
Theorem txComplete_promise_fulfilled msg txHash txCost w :
  eval (txComplete msg txHash txCost) w = length (promises w)
  /\ promises (exec (txComplete msg txHash txCost) w)
     = promises w ++ [FulfilledVoid]
  /\ ethSpent (react (exec (txComplete msg txHash txCost) w))
     = (ethSpent (react w) + txCost)%float
  /\ console_lines (exec (txComplete msg txHash txCost) w)
     = console_lines w ++ [LogTransactionResult msg txHash txCost]
  /\ step (react (exec (txComplete msg txHash txCost) w)) = step (react w).
Proof.
  assert (Hins : <[length (promises w) := FulfilledVoid]> (promises w ++ [Pending])
                 = promises w ++ [FulfilledVoid]).
  { rewrite insert_app_r_alt by lia. rewrite Nat.sub_diag. reflexivity. }
  split; [reflexivity|]. split.
  - unfold txComplete. rewrite !exec_bind. cbn -[PrimFloat.add].
    rewrite lookup_app_r by lia. rewrite Nat.sub_diag. cbn -[PrimFloat.add].
    exact Hins.
  - split; [reflexivity|]. split; [by_effects; reflexivity | reflexivity].
Qed.

(** What an event adds to the effects, in the counts that matter to the
    host: [onStart] comes with [migrateDAO], [onStop] with [onComplete] or
    [onAbort]. *)
Lemma handle_emits e w :
  exists l,
    effects (handle e w) = effects w ++ l
    /\ length (List.filter is_onStart l) = length (List.filter is_migrateDAO l)
    /\ length (List.filter is_onStop l)
       = length (List.filter is_onComplete l) + length (List.filter is_onAbort l).
Proof.
  assert (Hnone : exists l : list Effect,
            effects w = effects w ++ l
            /\ length (List.filter is_onStart l) = length (List.filter is_migrateDAO l)
            /\ length (List.filter is_onStop l)
               = length (List.filter is_onComplete l)
                 + length (List.filter is_onAbort l)).
  { exists []. rewrite app_nil_r. auto. }
  destruct e as [|provider| | |c]; cbn [handle].
  - destruct (Z.eq_dec (step (react w)) STEP.Waiting) as [E|E].
    + rewrite (startInstallation_suspended w E). eexists. cbn. split; [reflexivity|auto].
    + rewrite (startInstallation_guarded w E). eexists. cbn. split; [reflexivity|auto].
  - destruct (awaiting_getWeb3 w); [exact Hnone|].
    unfold startInstallation_resumed.
    destruct provider as [e|[web3|]]; rewrite !exec_bind; cbn; try exact Hnone;
      rewrite <- ?app_assoc; eexists; (split; [reflexivity|cbn; auto]).
  - rewrite nextStep_exec. eexists. cbn. split; [reflexivity|auto].
  - exact Hnone.
  - destruct c; try rewrite invoke_getState; try exact Hnone;
      cbn [invoke]; rewrite ?exec_bind; cbn; rewrite <- ?app_assoc;
      eexists; (split; [reflexivity|cbn; auto]).
Qed.

Lemma handle_host_calls e w :
  times is_onStart (handle e w) + times is_migrateDAO w
  = times is_onStart w + times is_migrateDAO (handle e w)
  /\ times is_onStop (handle e w) + (times is_onComplete w + times is_onAbort w)
     = times is_onStop w
       + (times is_onComplete (handle e w) + times is_onAbort (handle e w)).
Proof.
  destruct (handle_emits e w) as (l & Hl & H1 & H2).
  unfold times. rewrite Hl, !List.filter_app, !length_app. lia.
Qed.

(** X5: on a mounted component, whatever happened, [onStart] was called
    as often as [migrateDAO], and [onStop] as often as [onComplete] and
    [onAbort] together: the host hears of every start of a migration, and a
    stop with every end. *)
Theorem host_calls_balanced w :
  reachable w ->
  times is_onStart w = times is_migrateDAO w
  /\ times is_onStop w = times is_onComplete w + times is_onAbort w.
Proof.
  induction 1 as [storage|e w _ [IH1 IH2]].
  - split; reflexivity.
  - destruct (handle_host_calls e w) as [H1 H2]. lia.
Qed.

(** X6: the checkpoint is written by the callbacks [setState] and
    [cleanState] and by nothing else: no click, no resumed call, no
    [nextStep], no [resetState] and no other callback, [migrationComplete]
    and [migrationAborted] included, changes [localStorage]. *)
Theorem checkpoint_written_by_setState_cleanState_only e w :
  writes_checkpoint e = false ->
  localStorage (handle e w) = localStorage w.
Proof.
  intros He. destruct e as [|provider| | |c]; cbn [handle].
  - destruct (Z.eq_dec (step (react w)) STEP.Waiting) as [E|E].
    + rewrite (startInstallation_suspended w E). reflexivity.
    + rewrite (startInstallation_guarded w E). reflexivity.
  - destruct (awaiting_getWeb3 w); [reflexivity|].
    apply startInstallation_resumed_frame.
  - rewrite nextStep_exec. reflexivity.
  - reflexivity.
  - destruct c; try rewrite invoke_getState; try reflexivity; discriminate He.
Qed.

(** X7: [setState] and [cleanState] touch the one key
    [DAO_MIGRATION_STATE]: every other key of [localStorage] keeps its
    value, and nothing else of the world changes. [setState] stores the
    text of [JSON.stringify], or the text undefined when there is none. *)
Theorem checkpoint_operations_frame st w :
  (forall key, key <> DAO_MIGRATION_STATE ->
     localStorage (exec (setState st) w) !! key = localStorage w !! key
     /\ localStorage (exec cleanState w) !! key = localStorage w !! key)
  /\ localStorage (exec (setState st) w) !! DAO_MIGRATION_STATE
     = Some (default "undefined" (JSON_stringify st))
  /\ localStorage (exec cleanState w) !! DAO_MIGRATION_STATE = None
  /\ react (exec (setState st) w) = react w
  /\ react (exec cleanState w) = react w
  /\ effects (exec (setState st) w) = effects w
  /\ effects (exec cleanState w) = effects w
  /\ onbeforeunload (exec (setState st) w) = onbeforeunload w
  /\ onbeforeunload (exec cleanState w) = onbeforeunload w.
Proof.
  split.
  - intros key Hkey. cbn.
    rewrite lookup_insert_ne by congruence.
    rewrite lookup_delete_ne by congruence. split; reflexivity.
  - cbn. rewrite lookup_insert_eq, lookup_delete_eq. repeat split.
Qed.

(** X8: [getState] reads and changes nothing. A stored text that is not
    JSON makes it throw the [SyntaxError] of [JSON.parse]; a stored empty
    text counts as no checkpoint and gives the empty object. *)
Theorem getState_edge_cases text w :
  localStorage w !! DAO_MIGRATION_STATE = Some text ->
  exec getState w = w
  /\ (text = EmptyString -> eval getState w = Returns empty_object)
  /\ (text <> EmptyString -> JSON_parse text = None ->
      eval getState w = Throws SyntaxError)
  /\ (text <> EmptyString -> forall v, JSON_parse text = Some v ->
      eval getState w = Returns v).
Proof.
  intros Hget. split; [apply getState_pure|].
  unfold eval, getState, bind, localStorage_getItem. rewrite Hget.
  split; [intros ->; reflexivity|].
  split.
  - intros Hne Hparse. rewrite (truthy_nonempty text Hne), Hparse. reflexivity.
  - intros Hne v Hparse. rewrite (truthy_nonempty text Hne), Hparse. reflexivity.
Qed.

(** X9: an installed leave-page prompt is removed by [migrationComplete]
    and by nothing else: after [migrationAborted], after [resetState],
    after any other event the browser still asks before the page is left. *)
Theorem leave_guard_removed_by_migrationComplete_only e w :
  leave_guard w = true ->
  is_migrationComplete e = false ->
  leave_guard (handle e w) = true.
Proof.
  intros Hguard He. destruct e as [|provider| | |c]; cbn [handle].
  - destruct (Z.eq_dec (step (react w)) STEP.Waiting) as [E|E].
    + rewrite (startInstallation_suspended w E). exact Hguard.
    + rewrite (startInstallation_guarded w E). exact Hguard.
  - destruct (awaiting_getWeb3 w); [exact Hguard|].
    unfold startInstallation_resumed.
    destruct provider as [e|[web3|]]; rewrite !exec_bind;
      first [exact Hguard | reflexivity].
  - rewrite nextStep_exec. exact Hguard.
  - exact Hguard.
  - destruct c; try rewrite invoke_getState; try exact Hguard.
    discriminate He.
Qed.

Lemma handle_Completed_has_result e w :
  (step (react w) = STEP.Completed -> is_Some (result (react w))) ->
  step (react (handle e w)) = STEP.Completed ->
  is_Some (result (react (handle e w))).
Proof.
  intros Hinv. destruct e as [|provider| | |c]; cbn [handle].
  - rewrite startInstallation_react. exact Hinv.
  - destruct (awaiting_getWeb3 w); [exact Hinv|].
    destruct (startInstallation_resumed_step provider w) as [-> | ->];
      [discriminate | exact Hinv].
  - rewrite nextStep_exec. exact Hinv.
  - cbn. discriminate.
  - destruct c; try rewrite invoke_getState; try exact Hinv.
    + cbn. discriminate.
    + intros _. cbn. eauto.
Qed.

(** X10: on a mounted component the phase is [Completed] only with a
    stored result: whenever the button that opens Alchemy is rendered, the
    result of the migration is there. *)
Theorem Completed_has_result w :
  reachable w ->
  (step (react w) = STEP.Completed -> is_Some (result (react w)))
  /\ (render_button (react w) = OpenAlchemy -> is_Some (result (react w))).
Proof.
  intros Hreach.
  assert (Hinv : step (react w) = STEP.Completed -> is_Some (result (react w))).
  { induction Hreach as [storage|e w _ IH].
    - cbn. discriminate.
    - apply handle_Completed_has_result. exact IH. }
  split; [exact Hinv|].
  unfold render_button.
  destruct (Z.eqb_spec (step (react w)) STEP.Completed) as [Ec|Ec]; cbn.
  - intros _. exact (Hinv Ec).
  - discriminate.
Qed.

End Migrator.

(** * The component at work

    The component with the JSON model above for the platform's JSON, texts
    for the deployment specification and the result, and a provider that
    carries nothing. *)

Abbreviation demo_stringify := (fun v : JSON.value => Some (JSON.stringify v)).
Abbreviation demo_run :=
  (@run string string unit JSON.value demo_stringify JSON.parse (JSON.Obj []) "dOrg").
Abbreviation demo_mount := (@mount string string ∅).
Abbreviation click := (@do_startInstallation string unit JSON.value).
Abbreviation provider_found :=
  (@getWeb3_settled string unit JSON.value (getWeb3_resolves (Some tt))).
Abbreviation no_wallet := (@getWeb3_rejects unit (mkError "no wallet")).
Abbreviation callback := (@do_callback string unit JSON.value).

(** A session that started a migration. *)
Abbreviation migrating := (demo_run [click; provider_found] demo_mount).

(** A session whose migration completed. *)
Abbreviation completed :=
  (demo_run [click; provider_found; callback (call_migrationComplete "avatar 0x01")]
            demo_mount).

Example migrating_step :
  step (react migrating) = STEP.Migrating
  /\ engine_calls migrating = [migrateDAO "dOrg"]
  /\ host_calls migrating = [onStart]
  /\ leave_guard migrating = true.
Proof. repeat split; reflexivity. Qed.

Example completed_step :
  step (react completed) = STEP.Completed
  /\ result (react completed) = Some "avatar 0x01"
  /\ host_calls completed = [onStart; onComplete "avatar 0x01"; onStop]
  /\ leave_guard completed = false.
Proof. repeat split; reflexivity. Qed.

(** Three transactions of 0.01, 0.02 and 0.03 cost 0.06. *)
Example three_transactions :
  ethSpent (react (demo_run
     [click; provider_found;
      callback (call_txComplete "token" "0xa1" 0.01);
      callback (call_txComplete "avatar" "0xa2" 0.02);
      callback (call_txComplete "schemes" "0xa3" 0.03);
      callback (call_migrationComplete "avatar 0x01")] demo_mount)) = 0.06%float
  /\ console_lines (demo_run
     [click; provider_found;
      callback (call_txComplete "token" "0xa1" 0.01);
      callback (call_txComplete "avatar" "0xa2" 0.02);
      callback (call_txComplete "schemes" "0xa3" 0.03);
      callback (call_migrationComplete "avatar 0x01")] demo_mount)
     = [LogTransactionResult "token" "0xa1" 0.01;
        LogTransactionResult "avatar" "0xa2" 0.02;
        LogTransactionResult "schemes" "0xa3" 0.03].
Proof. split; reflexivity. Qed.

(** The amount is a double, and every [+=] rounds: transactions of 0.1 and
    0.2 cost 0.30000000000000004, which is not the double 0.3. *)
Example rounded_costs :
  ethSpent (react (demo_run
     [click; provider_found;
      callback (call_txComplete "token" "0xa1" 0.1);
      callback (call_txComplete "avatar" "0xa2" 0.2)] demo_mount))
  = 0.30000000000000004%float
  /\ (0.30000000000000004 =? 0.3)%float = false.
Proof. split; reflexivity. Qed.

(** The guard of [startInstallation] is passed before the [await] and not
    looked at after it: two clicks before the provider is there start two
    migrations. *)
Example two_clicks_before_the_provider :
  engine_calls (demo_run [click; click; provider_found; provider_found] demo_mount)
  = [migrateDAO "dOrg"; migrateDAO "dOrg"].
Proof. reflexivity. Qed.

(** What is not JSON does not come back: [undefined] is stored as a text
    that [JSON.parse] refuses. *)
Example undefined_checkpoint :
  eval (getState JSON.parse (JSON.Obj []))
       (exec (setState (fun _ : JSON.value => None) JSON.Null) demo_mount)
  = Throws SyntaxError.
Proof. reflexivity. Qed.

(** ** Where the specification and the component part *)

(** Against C1 as stated: after a click that started a migration, three
    reports leave the log lines of the session empty. *)
Lemma reports_not_in_session_log :
  ~ reports_appended_to_session_log (Web3 := unit) demo_stringify JSON.parse
      (JSON.Obj []) "dOrg"
      [report_info "deploying"; report_error "gas price too low";
       report_txComplete "token deployed" "0xa1" 0.01]
      migrating
  /\ length (fullLogLines (react (demo_run
       (report_events (Web3 := unit)
          [report_info "deploying"; report_error "gas price too low";
           report_txComplete "token deployed" "0xa1" 0.01])
       migrating))) <> 3.
Proof.
  split.
  - unfold reports_appended_to_session_log. vm_compute. discriminate.
  - vm_compute. discriminate.
Qed.

(** Against C5 as stated: a migration that is aborted right after its start
    leaves the leave-page guard installed and the log lines of the session
    empty. *)
Lemma migrationAborted_keeps_guard :
  ~ migrationAborted_as_specified (mkError "out of gas") migrating
  /\ leave_guard (exec (migrationAborted (mkError "out of gas")) migrating) = true
  /\ fullLogLines (react (exec (migrationAborted (mkError "out of gas")) migrating)) = [].
Proof.
  split; [|split; reflexivity].
  unfold migrationAborted_as_specified. intros (_ & Hguard & _).
  vm_compute in Hguard. discriminate Hguard.
Qed.

(** Against C7 as stated: [migrationAborted] after the migration completed
    moves the phase from [Completed] to [Failed] and calls the host again. *)
Lemma terminal_callbacks_not_guarded :
  ~ terminal_callbacks_guarded demo_stringify JSON.parse (JSON.Obj []) completed.
Proof.
  unfold terminal_callbacks_guarded. intros H.
  destruct (H (or_introl eq_refl) (call_migrationAborted (mkError "late"))
              (or_introl (ex_intro _ (mkError "late") eq_refl))) as [Hstep _].
  vm_compute in Hstep. discriminate Hstep.
Qed.


(** ** The theorems at concrete sessions *)

(** A second click while the migration runs. *)
Lemma startInstallation_noop_unless_Waiting_witness :
  step (react migrating) <> STEP.Waiting
  /\ awaiting_getWeb3 migrating = 0
  /\ react (exec startInstallation migrating) = react migrating
  /\ engine_calls (demo_run [click; provider_found; click] migrating)
     = [migrateDAO "dOrg"].
Proof.
  assert (H : step (react migrating) <> STEP.Waiting) by (vm_compute; discriminate).
  pose proof (startInstallation_noop_unless_Waiting
                demo_stringify JSON.parse (JSON.Obj []) "dOrg" (Web3 := unit)
                migrating H) as [(Hreact & _) Hrun].
  exact (conj H (conj eq_refl (conj Hreact
           (Hrun eq_refl [provider_found; click] eq_refl)))).
Defined.

(** A click on a fresh component, without a wallet. *)
Lemma startInstallation_without_provider_witness :
  noWeb3Open (react (demo_run [click; getWeb3_settled no_wallet] demo_mount)) = true
  /\ step (react (demo_run [click; getWeb3_settled no_wallet] demo_mount))
     = STEP.Waiting
  /\ engine_calls (demo_run [click; getWeb3_settled no_wallet] demo_mount) = [].
Proof.
  pose proof (startInstallation_without_provider
                demo_stringify JSON.parse (JSON.Obj []) "dOrg"
                no_wallet demo_mount eq_refl I) as [(H1 & H2 & H3 & _) _].
  exact (conj H1 (conj H2 H3)).
Defined.


(** A completed session: an abort arrives late, then the session is reset. *)
Lemma terminal_phase_transitions_witness :
  terminal (step (react completed))
  /\ step (react (exec (migrationAborted (mkError "late")) completed)) = STEP.Failed
  /\ step (react (exec resetState completed)) = STEP.Waiting
  /\ terminal (step (react (handle demo_stringify JSON.parse (JSON.Obj []) "dOrg"
                              click completed))).
Proof.
  assert (H : terminal (step (react completed))) by (left; reflexivity).
  pose proof (terminal_phase_transitions
                demo_stringify JSON.parse (JSON.Obj []) "dOrg" (Web3 := unit)
                completed H) as (Hstay & Hreset & Habort & _).
  exact (conj H (conj (proj1 (Habort (mkError "late")))
                      (conj Hreset (Hstay eq_refl click eq_refl)))).
Defined.

(** A checkpoint is stored, read back, and removed. *)
Lemma checkpoint_roundtrip_witness :
  eval (getState JSON.parse (JSON.Obj []))
       (exec (setState demo_stringify JSON.sample_checkpoint) demo_mount)
  = Returns JSON.sample_checkpoint
  /\ eval (getState JSON.parse (JSON.Obj []))
          (exec cleanState
                (exec (setState demo_stringify JSON.sample_checkpoint) demo_mount))
     = Returns (JSON.Obj []).
Proof.
  assert (Hparse : JSON.parse (JSON.stringify JSON.sample_checkpoint)
                   = Some JSON.sample_checkpoint) by (vm_compute; reflexivity).
  assert (Hne : JSON.stringify JSON.sample_checkpoint <> EmptyString)
    by (vm_compute; discriminate).
  pose proof (@checkpoint_roundtrip string string JSON.value
                demo_stringify JSON.parse (JSON.Obj [])
                JSON.sample_checkpoint (JSON.stringify JSON.sample_checkpoint)
                eq_refl Hparse Hne) as (Hset & Hclean & _).
  exact (conj (Hset demo_mount)
              (Hclean (exec (setState demo_stringify JSON.sample_checkpoint)
                            demo_mount))).
Defined.

(** ** More at concrete sessions *)

(** A click on a fresh component, with a wallet. *)
Lemma startInstallation_with_provider_witness :
  effects (demo_run [click; provider_found] demo_mount)
  = [console_log (ConsoleText "Starting Installation"); onStart; migrateDAO "dOrg"]
  /\ step (react (demo_run [click; provider_found] demo_mount)) = STEP.Migrating.
Proof.
  pose proof (startInstallation_with_provider
                demo_stringify JSON.parse (JSON.Obj []) "dOrg" tt demo_mount eq_refl)
    as (H1 & H2 & _).
  exact (conj H1 H2).
Defined.

(** After an abort the button stays disabled, also for a late provider. *)
Lemma install_button_enabled_in_Waiting_only_witness :
  step (react migrating) <> STEP.Waiting
  /\ render_button (react (demo_run
       [callback (call_migrationAborted (mkError "out of gas")); click; provider_found]
       migrating)) <> InstallOrganisation false.
Proof.
  assert (H : step (react migrating) <> STEP.Waiting) by (vm_compute; discriminate).
  pose proof (install_button_enabled_in_Waiting_only
                demo_stringify JSON.parse (JSON.Obj []) "dOrg" (Web3 := unit)
                migrating H) as [_ Hrun].
  exact (conj H (proj2 (Hrun [callback (call_migrationAborted (mkError "out of gas"));
                              click; provider_found] eq_refl))).
Defined.

Lemma host_calls_balanced_witness :
  reachable (Web3 := unit) demo_stringify JSON.parse (JSON.Obj []) "dOrg" completed
  /\ times is_onStart completed = times is_migrateDAO completed
  /\ times is_onStop completed
     = times is_onComplete completed + times is_onAbort completed.
Proof.
  assert (H : reachable (Web3 := unit) demo_stringify JSON.parse (JSON.Obj []) "dOrg"
                        completed).
  { apply (reachable_run demo_stringify JSON.parse (JSON.Obj []) "dOrg").
    apply reachable_mount. }
  exact (conj H (host_calls_balanced demo_stringify JSON.parse (JSON.Obj []) "dOrg"
                   completed H)).
Defined.

(** An abort leaves the checkpoint where it is. *)
Lemma checkpoint_written_by_setState_cleanState_only_witness :
  localStorage (handle demo_stringify JSON.parse (JSON.Obj []) "dOrg"
                  (callback (call_migrationAborted (mkError "out of gas")))
                  (exec (setState demo_stringify JSON.sample_checkpoint) migrating))
  = localStorage (exec (setState demo_stringify JSON.sample_checkpoint) migrating).
Proof.
  exact (checkpoint_written_by_setState_cleanState_only
           demo_stringify JSON.parse (JSON.Obj []) "dOrg"
           (callback (call_migrationAborted (mkError "out of gas")))
           (exec (setState demo_stringify JSON.sample_checkpoint) migrating)
           eq_refl).
Defined.

(** Another key of the storage survives both operations. *)
Lemma checkpoint_operations_frame_witness :
  localStorage (exec (setState demo_stringify JSON.sample_checkpoint)
                     (@mount string string {[ "theme" := "dark" ]})) !! "theme"
  = Some "dark"
  /\ localStorage (exec cleanState
                        (@mount string string {[ "theme" := "dark" ]})) !! "theme"
     = Some "dark".
Proof.
  assert (Hkey : "theme" <> DAO_MIGRATION_STATE) by (vm_compute; discriminate).
  exact (proj1 (checkpoint_operations_frame demo_stringify JSON.sample_checkpoint
                  (@mount string string {[ "theme" := "dark" ]}))
               "theme" Hkey).
Defined.

(** A stored text that is not JSON. *)
Lemma getState_edge_cases_witness :
  eval (getState JSON.parse (JSON.Obj []))
       (@mount string string {[ DAO_MIGRATION_STATE := "{oops" ]})
  = Throws SyntaxError.
Proof.
  assert (Hne : "{oops" <> EmptyString) by discriminate.
  assert (Hparse : JSON.parse "{oops" = None) by (vm_compute; reflexivity).
  exact (proj1 (proj2 (proj2 (getState_edge_cases JSON.parse (JSON.Obj []) "{oops"
                  (@mount string string {[ DAO_MIGRATION_STATE := "{oops" ]})
                  eq_refl)))
               Hne Hparse).
Defined.

(** The prompt survives an abort. *)
Lemma leave_guard_removed_by_migrationComplete_only_witness :
  leave_guard (handle demo_stringify JSON.parse (JSON.Obj []) "dOrg"
                 (callback (call_migrationAborted (mkError "out of gas")))
                 migrating) = true.
Proof.
  exact (leave_guard_removed_by_migrationComplete_only
           demo_stringify JSON.parse (JSON.Obj []) "dOrg"
           (callback (call_migrationAborted (mkError "out of gas")))
           migrating eq_refl eq_refl).
Defined.

Lemma Completed_has_result_witness :
  reachable (Web3 := unit) demo_stringify JSON.parse (JSON.Obj []) "dOrg" completed
  /\ step (react completed) = STEP.Completed
  /\ is_Some (result (react completed)).
Proof.
  assert (H : reachable (Web3 := unit) demo_stringify JSON.parse (JSON.Obj []) "dOrg"
                        completed).
  { apply (reachable_run demo_stringify JSON.parse (JSON.Obj []) "dOrg").
    apply reachable_mount. }
  exact (conj H (conj eq_refl
           (proj1 (Completed_has_result demo_stringify JSON.parse (JSON.Obj []) "dOrg"
                     completed H) eq_refl))).
Defined.

(** * The voting machine editor

    [VotingMachineEditor] lays the fields of a voting machine form out: the
    first four one by one, the later ones in rows of two. *)
Module VotingMachineEditor.

Local Open Scope list_scope.

Section Editor.

(** A field of the form library, opaque to the component. *)
Context {AnyField : Type}.

(** What the component renders: form fields, alone or in a row. A [field]
    prop is [None] when the expression it is given is [undefined]. *)
Inductive Element : Type :=
| FormField (field : option AnyField) (editable : bool)
| MDBRow (children : list Element).

(** An element of the rendered list, with its [key]. *)
Record Keyed : Type := mkKeyed { key : string; element : Element }.

(** The template literal of the keys. *)
Definition genproto_key (index : nat) : string :=
  "genproto-field-" +:+ pretty index.

(** The callback of [fields.map]: what it writes to the console and the
    element it returns. *)
Definition render_field (fields : list AnyField) (editable : bool)
    (index : nat) (field : AnyField) : list string * Keyed :=
  if (index <=? 3)%nat then
    ([], mkKeyed (genproto_key index) (FormField (Some field) editable))
  else if negb (index mod 2 =? 0)%nat then
    ([], mkKeyed (genproto_key index)
           (MDBRow [FormField (Some field) editable;
                    FormField (fields !! (index - 1)) editable]))
  else
    (["UNEXPECTED PARAM"],
     mkKeyed (genproto_key index) (FormField (Some field) editable)).

(** The component: the console output and the rendered list. *)
Definition VotingMachineEditor (fields : list AnyField) (editable : bool)
    : list string * list Keyed :=
  let rendered := imap (render_field fields editable) fields in
  (concat (fst <$> rendered), snd <$> rendered).

(** The [FormField]s of an element, each with its two props. *)
Fixpoint form_fields (e : Element) : list (option AnyField * bool) :=
  match e with
  | FormField field editable => [(field, editable)]
  | MDBRow children =>
      (fix all (cs : list Element) : list (option AnyField * bool) :=
         match cs with
         | [] => []
         | c :: cs => form_fields c ++ all cs
         end) children
  end.

(** The [FormField]s of a rendered list. *)
Definition all_form_fields (els : list Keyed) : list (option AnyField * bool) :=
  concat ((fun k => form_fields (element k)) <$> els).

(** ** Facts *)

Lemma imap_snoc {A B} (f : nat -> A -> B) l x :
  imap f (l ++ [x]) = imap f l ++ [f (length l) x].
Proof. rewrite imap_app. cbn. rewrite Nat.add_0_r. reflexivity. Qed.

Lemma rendered_lookup fields editable i :
  (VotingMachineEditor fields editable).2 !! i
  = (fun field => (render_field fields editable i field).2) <$> fields !! i.
Proof.
  unfold VotingMachineEditor. cbn.
  rewrite list_lookup_fmap, list_lookup_imap.
  destruct (fields !! i); reflexivity.
Qed.

Lemma render_field_key fields editable i field :
  key (render_field fields editable i field).2 = genproto_key i.
Proof.
  unfold render_field.
  destruct (i <=? 3)%nat; [reflexivity|].
  destruct (negb (i mod 2 =? 0)%nat); reflexivity.
Qed.

Lemma genproto_key_inj i j : genproto_key i = genproto_key j -> i = j.
Proof.
  unfold genproto_key. intros H.
  apply (inj (String.app "genproto-field-")) in H.
  apply (inj pretty) in H. exact H.
Qed.

(** X11: the component renders one keyed element per field, in the order
    of the fields; the element of the field at [index] has the key
    [genproto-field-index], so no two elements share a key. *)
Theorem one_keyed_element_per_field fields editable :
  length (VotingMachineEditor fields editable).2 = length fields
  /\ (forall i k, (VotingMachineEditor fields editable).2 !! i = Some k ->
        key k = genproto_key i)
  /\ NoDup (key <$> (VotingMachineEditor fields editable).2).
Proof.
  assert (Hkey : forall i k, (VotingMachineEditor fields editable).2 !! i = Some k ->
                   key k = genproto_key i).
  { intros i k. rewrite rendered_lookup.
    destruct (fields !! i) as [field|]; [|discriminate].
    cbn. intros [= <-]. apply render_field_key. }
  split; [|split; [exact Hkey|]].
  - unfold VotingMachineEditor. cbn. rewrite length_fmap, length_imap. reflexivity.
  - apply NoDup_alt. intros i j x Hi Hj.
    rewrite list_lookup_fmap in Hi, Hj.
    destruct ((VotingMachineEditor fields editable).2 !! i) as [ki|] eqn:Ei;
      [|discriminate].
    destruct ((VotingMachineEditor fields editable).2 !! j) as [kj|] eqn:Ej;
      [|discriminate].
    cbn in Hi, Hj. apply Hkey in Ei. apply Hkey in Ej.
    apply genproto_key_inj. congruence.
Qed.

(** The element of a field, by its index. *)
Lemma render_field_cases fields editable i field :
  fields !! i = Some field ->
  (i <= 3
   /\ render_field fields editable i field
      = ([], mkKeyed (genproto_key i) (FormField (Some field) editable)))
  \/ (3 < i /\ i mod 2 <> 0
      /\ exists previous,
           fields !! (i - 1) = Some previous
           /\ render_field fields editable i field
              = ([], mkKeyed (genproto_key i)
                       (MDBRow [FormField (Some field) editable;
                                FormField (Some previous) editable])))
  \/ (3 < i /\ i mod 2 = 0
      /\ render_field fields editable i field
         = (["UNEXPECTED PARAM"],
            mkKeyed (genproto_key i) (FormField (Some field) editable))).
Proof.
  intros Hi. unfold render_field.
  destruct (Nat.leb_spec i 3) as [Hle|Hgt]; [left; auto|].
  destruct (Nat.eqb_spec (i mod 2) 0) as [Heven|Hodd]; cbn [negb].
  - right; right. auto.
  - right; left. split; [exact Hgt|]. split; [exact Hodd|].
    apply lookup_lt_Some in Hi.
    destruct (lookup_lt_is_Some_2 fields (i - 1)) as [previous Hprev]; [lia|].
    exists previous. rewrite Hprev. auto.
Qed.

(** X12: the layout. The first four fields are rendered alone. From the
    fifth on, a field at an odd index is rendered in a row, followed in that
    row by the field before it, which always exists; a field at an even
    index is rendered alone, though it is shown again in the row of the
    field after it. *)
Theorem layout_by_index fields editable i field :
  fields !! i = Some field ->
  (i <= 3 ->
   (VotingMachineEditor fields editable).2 !! i
   = Some (mkKeyed (genproto_key i) (FormField (Some field) editable)))
  /\ (3 < i -> i mod 2 <> 0 ->
      exists previous,
        fields !! (i - 1) = Some previous
        /\ (VotingMachineEditor fields editable).2 !! i
           = Some (mkKeyed (genproto_key i)
                     (MDBRow [FormField (Some field) editable;
                              FormField (Some previous) editable])))
  /\ (3 < i -> i mod 2 = 0 ->
      (VotingMachineEditor fields editable).2 !! i
      = Some (mkKeyed (genproto_key i) (FormField (Some field) editable))).
Proof.
  intros Hi. rewrite rendered_lookup, Hi. cbn [fmap option_fmap option_map].
  destruct (render_field_cases fields editable i field Hi)
    as [[Hle ->]|[(Hgt & Hodd & previous & Hprev & ->)|(Hgt & Heven & ->)]].
  - split; [reflexivity|]. split; intros; lia.
  - split; [intros; lia|]. split; [|intros; lia].
    intros _ _. exists previous. auto.
  - split; [intros; lia|]. split; [intros; lia|]. reflexivity.
Qed.

(** X13: no [FormField] is rendered without a field: the row of an odd
    index never reads past the fields. Every [FormField] is given the
    [editable] of the component, and every field of the form is rendered. *)
Theorem every_form_field_has_its_field fields editable :
  Forall (fun p => is_Some p.1 /\ p.2 = editable)
         (all_form_fields (VotingMachineEditor fields editable).2)
  /\ (forall field, field ∈ fields ->
        (Some field, editable)
          ∈ all_form_fields (VotingMachineEditor fields editable).2).
Proof.
  split.
  - unfold all_form_fields. apply Forall_concat, Forall_fmap, Forall_lookup.
    intros i k. rewrite rendered_lookup.
    destruct (fields !! i) as [field|] eqn:Hi; [|discriminate].
    cbn [fmap option_fmap option_map]. intros [= <-].
    destruct (render_field_cases fields editable i field Hi)
      as [[_ ->]|[(_ & _ & previous & _ & ->)|(_ & _ & ->)]]; cbn;
      repeat constructor; cbn; eauto.
  - intros field Hin. apply list_elem_of_lookup in Hin as [i Hi].
    unfold all_form_fields. apply list_elem_of_In, in_concat.
    exists (form_fields
              (element (render_field fields editable i field).2)).
    split.
    + apply list_elem_of_In, list_elem_of_fmap.
      exists (render_field fields editable i field).2. split; [reflexivity|].
      apply list_elem_of_lookup. exists i. rewrite rendered_lookup, Hi. reflexivity.
    + destruct (render_field_cases fields editable i field Hi)
        as [[_ ->]|[(_ & _ & previous & _ & ->)|(_ & _ & ->)]]; cbn; auto.
Qed.

Lemma concat_imap_singletons {A B C} (f : nat -> A -> B) (g : B -> list C)
    (h : A -> C) (l : list A) :
  (forall i x, l !! i = Some x -> g (f i x) = [h x]) ->
  concat (g <$> imap f l) = h <$> l.
Proof.
  revert f. induction l as [|a l IH]; intros f H; [reflexivity|].
  cbn. rewrite (H 0 a eq_refl). cbn. f_equal.
  apply IH. intros i x Hi. apply (H (S i)). exact Hi.
Qed.

Lemma render_field_counts fields editable i field :
  length (render_field fields editable i field).1
  = (if (3 <? i)%nat && (i mod 2 =? 0)%nat then 1 else 0)
  /\ length (form_fields (element (render_field fields editable i field).2))
     = (if (3 <? i)%nat && negb (i mod 2 =? 0)%nat then 2 else 1).
Proof.
  unfold render_field.
  destruct (Nat.leb_spec i 3) as [Hle|Hgt];
    destruct (Nat.ltb_spec 3 i) as [Hlt|Hge]; try lia;
    destruct (i mod 2 =? 0)%nat; split; reflexivity.
Qed.

Lemma rendered_counts all editable (l : list AnyField) :
  length (concat (fst <$> imap (render_field all editable) l))
  = (length l - 3) / 2
  /\ length (concat ((fun r => form_fields (element r.2))
                       <$> imap (render_field all editable) l))
     = length l + (length l - 4) / 2.
Proof.
  induction l as [|field l [IH1 IH2]] using rev_ind; [split; reflexivity|].
  rewrite imap_snoc, !fmap_app, !concat_app, !length_app. cbn [fmap list_fmap concat].
  rewrite !app_nil_r, IH1, IH2.
  destruct (render_field_counts all editable (length l) field) as [-> ->].
  cbn [length]. rewrite Nat.add_1_r. generalize (length l). intros n.
  destruct (Nat.ltb_spec 3 n) as [Hlt|Hge];
    destruct (Nat.eqb_spec (n mod 2) 0) as [Heven|Hodd]; cbn [andb negb];
    split; zify; Z.to_euclidean_division_equations; lia.
Qed.

(** X14: how much is rendered. Of [n] fields, the ones at an even index
    from the fifth on are shown twice where a field follows them, so
    [n + (n - 4) / 2] form fields are rendered in all; and for each field at
    an even index from the fifth on, [(n - 3) / 2] of them, the console gets
    the message UNEXPECTED PARAM. With at most four fields each is shown
    once and the console stays silent. *)
Theorem rendered_amounts fields editable :
  length (all_form_fields (VotingMachineEditor fields editable).2)
  = length fields + (length fields - 4) / 2
  /\ length (VotingMachineEditor fields editable).1 = (length fields - 3) / 2
  /\ Forall (fun message => message = "UNEXPECTED PARAM")
            (VotingMachineEditor fields editable).1
  /\ (length fields <= 4 ->
      (VotingMachineEditor fields editable).1 = []
      /\ all_form_fields (VotingMachineEditor fields editable).2
         = (fun field => (Some field, editable)) <$> fields).
Proof.
  destruct (rendered_counts fields editable fields) as [Hlogs Hfields].
  assert (Hall : length (all_form_fields (VotingMachineEditor fields editable).2)
                 = length fields + (length fields - 4) / 2).
  { unfold all_form_fields, VotingMachineEditor. cbn.
    rewrite <- list_fmap_compose. exact Hfields. }
  split; [exact Hall|]. split; [exact Hlogs|]. split.
  - unfold VotingMachineEditor. cbn. apply Forall_concat, Forall_fmap, Forall_lookup.
    intros i r. rewrite list_lookup_imap.
    destruct (fields !! i) as [field|] eqn:Hi; [|discriminate].
    cbn. intros [= <-].
    destruct (render_field_cases fields editable i field Hi)
      as [[_ ->]|[(_ & _ & previous & _ & ->)|(_ & _ & ->)]]; cbn;
      repeat constructor.
  - intros Hfew. split.
    + apply length_zero_iff_nil.
      etransitivity; [exact Hlogs | apply Nat.div_small; lia].
    + unfold all_form_fields, VotingMachineEditor. cbn.
      rewrite <- list_fmap_compose.
      apply (concat_imap_singletons _ _ (fun field => (Some field, editable))).
      intros i field Hi. cbn.
      destruct (render_field_cases fields editable i field Hi)
        as [[_ ->]|[(Hgt & _)|(Hgt & _)]]; [reflexivity| |];
        apply lookup_lt_Some in Hi; lia.
Qed.

End Editor.

End VotingMachineEditor.

(** ** The editor on the fields of the genesis protocol *)

(** The twelve parameters of the genesis protocol, in the order of the form. *)
Abbreviation genesis_fields :=
  ["queuedVoteRequiredPercentage"; "queuedVotePeriodLimit"; "thresholdConst";
   "proposingRepReward"; "minimumDaoBounty"; "boostedVotePeriodLimit";
   "daoBountyConst"; "activationTime"; "preBoostedVotePeriodLimit";
   "quietEndingPeriod"; "voteOnBehalf"; "votersReputationLossRatio"].

Example twelve_fields :
  (VotingMachineEditor.VotingMachineEditor genesis_fields true).1
  = ["UNEXPECTED PARAM"; "UNEXPECTED PARAM"; "UNEXPECTED PARAM"; "UNEXPECTED PARAM"]
  /\ length (VotingMachineEditor.all_form_fields
               (VotingMachineEditor.VotingMachineEditor genesis_fields true).2) = 16.
Proof. split; reflexivity. Qed.

(** The sixth field shares its row with the fifth. *)
Lemma layout_by_index_witness :
  exists previous,
    genesis_fields !! 4 = Some previous
    /\ (VotingMachineEditor.VotingMachineEditor genesis_fields true).2 !! 5
       = Some (VotingMachineEditor.mkKeyed (VotingMachineEditor.genproto_key 5)
                 (VotingMachineEditor.MDBRow
                    [VotingMachineEditor.FormField (Some "boostedVotePeriodLimit") true;
                     VotingMachineEditor.FormField (Some previous) true])).
Proof.
  assert (Hgt : 3 < 5) by lia.
  assert (Hodd : 5 mod 2 <> 0) by (vm_compute; discriminate).
  exact (proj1 (proj2 (VotingMachineEditor.layout_by_index genesis_fields true 5
                         "boostedVotePeriodLimit" eq_refl))
               Hgt Hodd).
Defined.

(** Three fields are shown once each, in silence. *)
Lemma rendered_amounts_witness :
  (VotingMachineEditor.VotingMachineEditor ["a"; "b"; "c"] false).1 = []
  /\ VotingMachineEditor.all_form_fields
       (VotingMachineEditor.VotingMachineEditor ["a"; "b"; "c"] false).2
     = [(Some "a", false); (Some "b", false); (Some "c", false)].
Proof.
  assert (Hfew : length ["a"; "b"; "c"] <= 4) by (cbn; lia).
  exact (proj2 (proj2 (proj2 (VotingMachineEditor.rendered_amounts
                                ["a"; "b"; "c"] false)))
               Hfew).
Defined.

(** * A model of the texts of numbers

    The forms and the line graphic are verified against any conversions
    between texts and numbers (see their sections below); these modules
    give concrete ones for decimal texts, used to run the code on actual
    data. *)
Module Decimal.

(** The number a text of decimal digits stands for; no other text is one. *)
Definition natural (s : string) : option N :=
  match JSON.read_digits s 0 0 with
  | (n, S _, EmptyString) => Some (Z.to_N n)
  | _ => None
  end.

Fixpoint drop_zeros (digits : list ascii) : list ascii :=
  match digits with
  | "0"%char :: rest => drop_zeros rest
  | _ => digits
  end.

(** The decimals of a fraction given in units of [1 / scale], [scale] a
    power of ten, without the zeros at their end. *)
Definition decimals (scale fraction : N) : string :=
  match list_ascii_of_string (pretty (scale + fraction)%N) with
  | _ :: digits => string_of_list_ascii (rev (drop_zeros (rev digits)))
  | [] => EmptyString
  end.

(** The text of a fraction: its decimal expansion, cut after sixteen
    decimals. *)
Definition fraction_text (sign : string) (numerator denominator : N) : string :=
  let whole := (numerator / denominator)%N in
  let fraction := ((numerator mod denominator) * 10 ^ 16 / denominator)%N in
  if (fraction =? 0)%N then sign +:+ pretty whole
  else sign +:+ pretty whole +:+ "." +:+ decimals (10 ^ 16) fraction.

(** A text of a double, from its sign, mantissa and exponent: the decimal
    expansion of its value, cut after sixteen decimals. This is the text
    JavaScript gives for whole numbers below ten to the 21 and for short
    decimal fractions; for other numbers JavaScript gives the shortest
    decimal that reads back as the number. *)
Definition text (x : number) : string :=
  match FloatOps.Prim2SF x with
  | SpecFloat.S754_nan => "NaN"
  | SpecFloat.S754_infinity sign => if sign then "-Infinity" else "Infinity"
  | SpecFloat.S754_zero _ => "0"
  | SpecFloat.S754_finite sign mantissa exponent =>
      let sign := if sign then "-" else EmptyString in
      match exponent with
      | Zneg p => fraction_text sign (Npos mantissa) (2 ^ Npos p)
      | _ => fraction_text sign (Npos mantissa * 2 ^ Z.to_N exponent) 1
      end
  end.

(** The double of a text of decimal digits, rounded to the nearest; in this
    model no other text is a number. *)
Definition number (s : string) : number :=
  match natural s with
  | Some n =>
      FloatOps.SF2Prim
        (SpecFloat.binary_normalize FloatOps.prec FloatOps.emax (Z.of_N n) 0 false)
  | None => PrimFloat.nan
  end.

End Decimal.

(** The conversions of big numbers, over the natural numbers. *)
Module Web3.

Definition toBN (s : string) : option N := Decimal.natural s.

Definition toString (n : N) : string := pretty n.

(** One ether in wei. *)
Definition ether : N := 10 ^ 18.

Definition toWei (units : N) : N := (units * ether)%N.

Definition fromWei (wei : N) : string :=
  if (wei mod ether =? 0)%N then pretty (wei / ether)%N
  else pretty (wei / ether)%N +:+ "." +:+ Decimal.decimals ether (wei mod ether)%N.

End Web3.

(** * The forms of the DAO creator

    The forms of [lib/forms]: each form holds fields, a [toState] that
    reads the fields into a state of the DAO, and a [fromState] that writes
    a state into the fields. A form is modelled by the value it has at a
    moment; [fromState] and an assignment to [value] give the next value.
    The classes [FieldState] and [FormState] of the formstate library are
    kept to what the forms use of them: the value of a field, the fields of
    a form, and the calls of [validators], recorded in their order. *)
Module Forms.

Local Open Scope list_scope.

Notation "x |> f" := (f x) (at level 45, left associativity, only parsing).

(** The validators of [./validators], by name. [noDuplicates_address] is
    [noDuplicates] with the comparison of the addresses of two members. *)
Inductive Validator : Type :=
| requiredText
| validAddress
| validBigNumber
| validTokenSymbol
| validName
| requireElement (what : string)
| noDuplicates_address
| validPercentage
| greaterThan (bound : Z)
| lessThanOrEqual (bound : Z)
| greaterThanOrEqual (bound : Z)
| nonZeroAddress.

Module FriendlyField.

Record t : Type := mk {
  value : string;
  validator_calls : list (list Validator);
  displayName : string;
  description : string
}.

Definition new (v : string) : t := mk v [] EmptyString EmptyString.

Definition validators (vs : list Validator) (f : t) : t :=
  mk (value f) (validator_calls f ++ [vs]) (displayName f) (description f).

Definition setDescription (d : string) (f : t) : t :=
  mk (value f) (validator_calls f) (displayName f) d.

Definition setDisplayName (n : string) (f : t) : t :=
  mk (value f) (validator_calls f) n (description f).

(** The assignment [field.value = v]. *)
Definition set_value (v : string) (f : t) : t :=
  mk v (validator_calls f) (displayName f) (description f).

(** Two fields that differ in their value at most. *)
Definition same_settings (f g : t) : Prop :=
  validator_calls f = validator_calls g
  /\ displayName f = displayName g
  /\ description f = description g.

End FriendlyField.

Module FriendlyForm.

Record t (T : Type) : Type := mk {
  fields : T;
  validator_calls : list (list Validator);
  displayName : string;
  description : string
}.
Arguments mk {T} fields validator_calls displayName description.
Arguments fields {T} _.
Arguments validator_calls {T} _.
Arguments displayName {T} _.
Arguments description {T} _.

Definition new {T} (fs : T) : t T := mk fs [] EmptyString EmptyString.

Definition validators {T} (vs : list Validator) (f : t T) : t T :=
  mk (fields f) (validator_calls f ++ [vs]) (displayName f) (description f).

Definition setDescription {T} (d : string) (f : t T) : t T :=
  mk (fields f) (validator_calls f) (displayName f) d.

Definition setDisplayName {T} (n : string) (f : t T) : t T :=
  mk (fields f) (validator_calls f) n (description f).

(** The fields of a form replaced: an assignment to a field of [this.$], or
    to [this.$] itself. *)
Definition set_fields {T} (fs : T) (f : t T) : t T :=
  mk fs (validator_calls f) (displayName f) (description f).

End FriendlyForm.

(** ** The states the forms read and write

    The types of [../state]. Only their use is in the source files: the
    records have the properties the forms read and construct. *)
Module State.

Record DAOConfig : Type := mkDAOConfig {
  daoName : string;
  tokenName : string;
  tokenSymbol : string
}.

Record Member (BN : Type) : Type := mkMember {
  address : string;
  tokens : BN;
  reputation : BN
}.
Arguments mkMember {BN} address tokens reputation.
Arguments address {BN} _.
Arguments tokens {BN} _.
Arguments reputation {BN} _.

(** The object [new GenesisProtocol] is given, which is its [config]. *)
Record GenesisProtocolConfig (BN : Type) : Type := mkGenesisProtocolConfig {
  queuedVoteRequiredPercentage : BN;
  queuedVotePeriodLimit : BN;
  thresholdConst : BN;
  proposingRepReward : BN;
  minimumDaoBounty : BN;
  boostedVotePeriodLimit : BN;
  daoBountyConst : BN;
  activationTime : BN;
  preBoostedVotePeriodLimit : BN;
  quietEndingPeriod : BN;
  voteOnBehalf : string;
  votersReputationLossRatio : BN
}.
Arguments mkGenesisProtocolConfig {BN}.
Arguments queuedVoteRequiredPercentage {BN} _.
Arguments queuedVotePeriodLimit {BN} _.
Arguments thresholdConst {BN} _.
Arguments proposingRepReward {BN} _.
Arguments minimumDaoBounty {BN} _.
Arguments boostedVotePeriodLimit {BN} _.
Arguments daoBountyConst {BN} _.
Arguments activationTime {BN} _.
Arguments preBoostedVotePeriodLimit {BN} _.
Arguments quietEndingPeriod {BN} _.
Arguments voteOnBehalf {BN} _.
Arguments votersReputationLossRatio {BN} _.

Record GenesisProtocol (BN : Type) : Type := new_GenesisProtocol {
  config : GenesisProtocolConfig BN
}.
Arguments new_GenesisProtocol {BN} config.
Arguments config {BN} _.

(** The schemes, by their [type]: the three the forms implement, and any
    other member of [SchemeType], kept by its name. *)
Inductive Scheme (BN : Type) : Type :=
| GenericScheme (contractToCall : string) (votingMachine : GenesisProtocol BN)
| ContributionReward (votingMachine : GenesisProtocol BN)
| SchemeRegistrar (votingMachine : GenesisProtocol BN)
| OtherScheme (typeName : string).
Arguments GenericScheme {BN} contractToCall votingMachine.
Arguments ContributionReward {BN} votingMachine.
Arguments SchemeRegistrar {BN} votingMachine.
Arguments OtherScheme {BN} typeName.

Record DAOcreatorState (BN : Type) : Type := mkDAOcreatorState {
  state_config : DAOConfig;
  state_members : list (Member BN);
  state_schemes : list (Scheme BN)
}.
Arguments mkDAOcreatorState {BN}.
Arguments state_config {BN} _.
Arguments state_members {BN} _.
Arguments state_schemes {BN} _.

End State.

(** ** The fields of each form *)

Record DAOConfigFields : Type := mkDAOConfigFields {
  daoName : FriendlyField.t;
  tokenName : FriendlyField.t;
  tokenSymbol : FriendlyField.t
}.

Record MemberFields : Type := mkMemberFields {
  address : FriendlyField.t;
  reputation : FriendlyField.t;
  tokens : FriendlyField.t
}.

Record GenesisProtocolFields : Type := mkGenesisProtocolFields {
  queuedVoteRequiredPercentage : FriendlyField.t;
  queuedVotePeriodLimit : FriendlyField.t;
  thresholdConst : FriendlyField.t;
  proposingRepReward : FriendlyField.t;
  minimumDaoBounty : FriendlyField.t;
  boostedVotePeriodLimit : FriendlyField.t;
  daoBountyConst : FriendlyField.t;
  activationTime : FriendlyField.t;
  preBoostedVotePeriodLimit : FriendlyField.t;
  quietEndingPeriod : FriendlyField.t;
  voteOnBehalf : FriendlyField.t;
  votersReputationLossRatio : FriendlyField.t
}.

Definition DAOConfigForm : Type := FriendlyForm.t DAOConfigFields.
Definition MemberForm : Type := FriendlyForm.t MemberFields.
Definition MembersForm : Type := FriendlyForm.t (list MemberForm).
Definition GenesisProtocolForm : Type := FriendlyForm.t GenesisProtocolFields.

(** The fields of a [GenericSchemeForm]. *)
Record GenericSchemeFields : Type := mkGenericSchemeFields {
  votingMachine : GenesisProtocolForm;
  contractToCall : FriendlyField.t
}.

(** The fields of a [ContributionRewardForm] and of a
    [SchemeRegistrarForm]: the voting machine alone. *)
Record VotingMachineOnly : Type := mkVotingMachineOnly {
  only_votingMachine : GenesisProtocolForm
}.

(** [SchemeForm]: the union of the three scheme forms. *)
Inductive SchemeForm : Type :=
| GenericSchemeForm (form : FriendlyForm.t GenericSchemeFields)
| ContributionRewardForm (form : FriendlyForm.t VotingMachineOnly)
| SchemeRegistrarForm (form : FriendlyForm.t VotingMachineOnly).

Definition SchemesForm : Type := FriendlyForm.t (list SchemeForm).

Record DAOFields : Type := mkDAOFields {
  config : DAOConfigForm;
  members : MembersForm;
  schemes : SchemesForm
}.

Definition DAOForm : Type := FriendlyForm.t DAOFields.

(** ** The forms without numbers *)

Definition CreateDAOConfigForm (form : option DAOConfigForm) : DAOConfigForm :=
  FriendlyForm.new
    {|
    daoName :=
       FriendlyField.new
         (match form with
          | Some form => FriendlyField.value (daoName (FriendlyForm.fields form))
          | None => EmptyString
          end)
       |> FriendlyField.validators [requiredText; validName]
       |> FriendlyField.setDisplayName "DAO Name"
       |> FriendlyField.setDescription
            "The name of the DAO.";
    tokenName :=
       FriendlyField.new
         (match form with
          | Some form => FriendlyField.value (tokenName (FriendlyForm.fields form))
          | None => EmptyString
          end)
       |> FriendlyField.validators [requiredText; validName]
       |> FriendlyField.setDisplayName "Token Name"
       |> FriendlyField.setDescription
            "The name of the DAO's token.";
    tokenSymbol :=
       FriendlyField.new
         (match form with
          | Some form => FriendlyField.value (tokenSymbol (FriendlyForm.fields form))
          | None => EmptyString
          end)
       |> FriendlyField.validators [requiredText; validTokenSymbol]
       |> FriendlyField.setDisplayName "Token Symbol"
       |> FriendlyField.setDescription
            "The token's 4 letter symbol for exchanges."
    |}.

Definition DAOConfigForm_toState (this : DAOConfigForm) : State.DAOConfig :=
  State.mkDAOConfig
    (FriendlyField.value (daoName (FriendlyForm.fields this)))
    (FriendlyField.value (tokenName (FriendlyForm.fields this)))
    (FriendlyField.value (tokenSymbol (FriendlyForm.fields this))).

Definition DAOConfigForm_fromState (state : State.DAOConfig) (this : DAOConfigForm)
    : DAOConfigForm :=
  FriendlyForm.set_fields
    (mkDAOConfigFields
       (FriendlyField.set_value (State.daoName state)
          (daoName (FriendlyForm.fields this)))
       (FriendlyField.set_value (State.tokenName state)
          (tokenName (FriendlyForm.fields this)))
       (FriendlyField.set_value (State.tokenSymbol state)
          (tokenSymbol (FriendlyForm.fields this))))
    this.

Definition CreateMemberForm (form : option MemberForm) : MemberForm :=
  FriendlyForm.new
    {|
    address :=
       FriendlyField.new
         (match form with
          | Some form => FriendlyField.value (address (FriendlyForm.fields form))
          | None => EmptyString
          end)
       |> FriendlyField.validators [requiredText; validAddress; nonZeroAddress]
       |> FriendlyField.setDisplayName "Address"
       |> FriendlyField.setDescription
            "The member's public address.";
    reputation :=
       FriendlyField.new
         (match form with
          | Some form => FriendlyField.value (reputation (FriendlyForm.fields form))
          | None => EmptyString
          end)
       |> FriendlyField.validators [requiredText; validBigNumber]
       |> FriendlyField.setDisplayName "Reputation"
       |> FriendlyField.setDescription
            "The member's reputation (voting power) within the DAO.";
    tokens :=
       FriendlyField.new
         (match form with
          | Some form => FriendlyField.value (tokens (FriendlyForm.fields form))
          | None => EmptyString
          end)
       |> FriendlyField.validators [requiredText; validBigNumber]
       |> FriendlyField.setDisplayName "Tokens"
       |> FriendlyField.setDescription
            "The number of DAO tokens this member owns."
    |}.

Definition CreateGenesisProtocolForm (form : option GenesisProtocolForm)
    : GenesisProtocolForm :=
  FriendlyForm.new
    {|
    queuedVoteRequiredPercentage :=
       FriendlyField.new
         (match form with
          | Some form => FriendlyField.value (queuedVoteRequiredPercentage (FriendlyForm.fields form))
          | None => "50"
          end)
       |> FriendlyField.validators [requiredText; validPercentage]
       |> FriendlyField.setDisplayName "Queued Vote Required Percentage"
       |> FriendlyField.setDescription
            "The minimum percentage for a vote on th queue to pass.";
    queuedVotePeriodLimit :=
       FriendlyField.new
         (match form with
          | Some form => FriendlyField.value (queuedVotePeriodLimit (FriendlyForm.fields form))
          | None => "1800"
          end)
       |> FriendlyField.validators [requiredText; validBigNumber; greaterThan 0]
       |> FriendlyField.setDisplayName "Queued Vote Period"
       |> FriendlyField.setDescription
            "The duration, in seconds, of a voting period.";
    thresholdConst :=
       FriendlyField.new
         (match form with
          | Some form => FriendlyField.value (thresholdConst (FriendlyForm.fields form))
          | None => "2000"
          end)
       |> FriendlyField.validators [requiredText; validBigNumber; greaterThan 1000; lessThanOrEqual 16000]
       |> FriendlyField.setDisplayName "Threshold Const"
       |> FriendlyField.setDescription
            "Constant for thresold calculation. threshold = thresholdConst ** (numberOfBoostedProposals).";
    proposingRepReward :=
       FriendlyField.new
         (match form with
          | Some form => FriendlyField.value (proposingRepReward (FriendlyForm.fields form))
          | None => "5"
          end)
       |> FriendlyField.validators [requiredText; validBigNumber; greaterThan 0]
       |> FriendlyField.setDisplayName "Proposing Rep Reward"
       |> FriendlyField.setDescription
            "Reputation reward amount to the user that passes a proposal.";
    minimumDaoBounty :=
       FriendlyField.new
         (match form with
          | Some form => FriendlyField.value (minimumDaoBounty (FriendlyForm.fields form))
          | None => "100"
          end)
       |> FriendlyField.validators [requiredText; validBigNumber; greaterThan 0]
       |> FriendlyField.setDisplayName "Minimum Dao Bounty"
       |> FriendlyField.setDescription
            "The minimum amount you can have as a bounty for a proposal.";
    boostedVotePeriodLimit :=
       FriendlyField.new
         (match form with
          | Some form => FriendlyField.value (boostedVotePeriodLimit (FriendlyForm.fields form))
          | None => "259200"
          end)
       |> FriendlyField.validators [requiredText; validBigNumber; greaterThan 0]
       |> FriendlyField.setDisplayName "Boosted Vote Period"
       |> FriendlyField.setDescription
            "The time limit, in seconds, for a proposal to be in the boosted phase, inclusive of the quietEndingPeriod.";
    daoBountyConst :=
       FriendlyField.new
         (match form with
          | Some form => FriendlyField.value (daoBountyConst (FriendlyForm.fields form))
          | None => "75"
          end)
       |> FriendlyField.validators [requiredText; validBigNumber; greaterThan 0]
       |> FriendlyField.setDisplayName "DAO Bounty Const"
       |> FriendlyField.setDescription
            "Multiple of a winning stake to be rewarded as bounty.";
    activationTime :=
       FriendlyField.new
         (match form with
          | Some form => FriendlyField.value (activationTime (FriendlyForm.fields form))
          | None => "0"
          end)
       |> FriendlyField.validators [requiredText; validBigNumber; greaterThanOrEqual 0]
       |> FriendlyField.setDisplayName "Activation Time"
       |> FriendlyField.setDescription
            "If set, proposals will be disabled until the time given has passed. Set to 0 to disable this feature.";
    preBoostedVotePeriodLimit :=
       FriendlyField.new
         (match form with
          | Some form => FriendlyField.value (preBoostedVotePeriodLimit (FriendlyForm.fields form))
          | None => "1814400"
          end)
       |> FriendlyField.validators [requiredText; validBigNumber; greaterThan 0]
       |> FriendlyField.setDisplayName "Pre-Boosted Vote Period"
       |> FriendlyField.setDescription
            "The time limit, in seconds, that a proposal can be in the preBoosted phase before it will be automatically closed with a winning vote of NO, regardless of the actual value of the winning vote at the time expiration. Note an attempt must be made to execute before the proposal state will actually change.";
    quietEndingPeriod :=
       FriendlyField.new
         (match form with
          | Some form => FriendlyField.value (quietEndingPeriod (FriendlyForm.fields form))
          | None => "86400"
          end)
       |> FriendlyField.validators [requiredText; validBigNumber; greaterThan 0]
       |> FriendlyField.setDisplayName "Quiet Ending Period"
       |> FriendlyField.setDescription
            "The duration, in seconds, at the end of the boosted phase during which any vote that changes the outcome of a proposal will cause the boosted phase to be extended by the amount of the quietEndingPeriod.  If the quietEndingPeriod expires then the proposal expires and may be executed.  It is a moving window: If the winning vote switches during the quietEndingPeriod then it restarts at the point in time when the vote switched, thus extending the boosted period.";
    voteOnBehalf :=
       FriendlyField.new
         (match form with
          | Some form => FriendlyField.value (voteOnBehalf (FriendlyForm.fields form))
          | None => "0x0000000000000000000000000000000000000000"
          end)
       |> FriendlyField.validators [requiredText; validAddress]
       |> FriendlyField.setDisplayName "Vote On Behalf"
       |> FriendlyField.setDescription
            "If set, only this address can call the vote function in the voting machine. This address would serve as a proxy voting module, and could contain additional functionality such as delegate based voting.";
    votersReputationLossRatio :=
       FriendlyField.new
         (match form with
          | Some form => FriendlyField.value (votersReputationLossRatio (FriendlyForm.fields form))
          | None => "1"
          end)
       |> FriendlyField.validators [requiredText; validBigNumber; validPercentage]
       |> FriendlyField.setDisplayName "Voters Reputation Loss Ratio"
       |> FriendlyField.setDescription
            "The percentage of reputation deducted from losing pre-boosted voters."
    |}
  |> FriendlyForm.setDisplayName "Genesis Protocol".

(** [CreateMembersForm]: the new form holds the member forms of the given
    one. *)
Definition CreateMembersForm (form : option MembersForm) : MembersForm :=
  FriendlyForm.new
    (match form with
     | Some form => map (fun value => value) (FriendlyForm.fields form)
     | None => []
     end)
  |> FriendlyForm.validators [requireElement "Member"]
  |> FriendlyForm.validators [noDuplicates_address].

Definition CreateGenericSchemeForm (form : option (FriendlyForm.t GenericSchemeFields))
    : FriendlyForm.t GenericSchemeFields :=
  FriendlyForm.new
    {| votingMachine :=
         match form with
         | Some form => votingMachine (FriendlyForm.fields form)
         | None => CreateGenesisProtocolForm None
         end;
       contractToCall :=
       FriendlyField.new
           (match form with
            | Some form => FriendlyField.value (contractToCall (FriendlyForm.fields form))
            | None => "0x0000000000000000000000000000000000000000"
            end)
         |> FriendlyField.validators [requiredText; validAddress; nonZeroAddress]
         |> FriendlyField.setDisplayName "Contract Address"
         |> FriendlyField.setDescription
              "Address of the contract to call"
    |}
  |> FriendlyForm.setDisplayName "Generic Scheme"
  |> FriendlyForm.setDescription
       "A scheme for proposing and executing calls to an arbitrary function on a specific contract on behalf of the organization avatar.".

Definition CreateContributionRewardForm (form : option (FriendlyForm.t VotingMachineOnly))
    : FriendlyForm.t VotingMachineOnly :=
  FriendlyForm.new
    {| only_votingMachine :=
         match form with
         | Some form => only_votingMachine (FriendlyForm.fields form)
         | None => CreateGenesisProtocolForm None
         end |}
  |> FriendlyForm.setDisplayName "Contribution Reward"
  |> FriendlyForm.setDescription
       "Contributors can propose rewards for themselves and others. These rewards can be tokens, reputation, or a combination.".

Definition CreateSchemeRegistrarForm (form : option (FriendlyForm.t VotingMachineOnly))
    : FriendlyForm.t VotingMachineOnly :=
  FriendlyForm.new
    {| only_votingMachine :=
         match form with
         | Some form => only_votingMachine (FriendlyForm.fields form)
         | None => CreateGenesisProtocolForm None
         end |}
  |> FriendlyForm.setDisplayName "Scheme Registrar"
  |> FriendlyForm.setDescription
       "Manages post-creation adding/modifying and removing of schemes. Schemes add functionality to the DAO.".

(** [CreateSchemesForm] starts from no scheme form, whatever form it is
    given. *)
Definition CreateSchemesForm (form : option SchemesForm) : SchemesForm :=
  FriendlyForm.new ([] : list SchemeForm)
  |> FriendlyForm.validators [requireElement "Scheme"].

Definition CreateDAOForm (form : option DAOForm) : DAOForm :=
  FriendlyForm.new
    {| config :=
         CreateDAOConfigForm
           (match form with
            | Some form => Some (config (FriendlyForm.fields form))
            | None => None
            end);
       members :=
         CreateMembersForm
           (match form with
            | Some form => Some (members (FriendlyForm.fields form))
            | None => None
            end);
       schemes :=
         CreateSchemesForm
           (match form with
            | Some form => Some (schemes (FriendlyForm.fields form))
            | None => None
            end) |}.

(** [getParams] of a scheme form. *)
Definition getParams (form : SchemeForm) : list FriendlyField.t :=
  match form with
  | GenericSchemeForm form => [contractToCall (FriendlyForm.fields form)]
  | ContributionRewardForm _ => []
  | SchemeRegistrarForm _ => []
  end.

(** ** The forms with numbers *)

Section Conversions.

(** The big numbers of web3 and the amounts [toWei] returns, with the
    conversions of [TypeConversion] ([../dependency/web3]) and the
    [toString] of a big number. [None] stands for a thrown exception. *)
Context {BN Wei : Type}.
Variable toBN : string -> option BN.
Variable toWei : BN -> Wei.
Variable toBN_of_wei : Wei -> option BN.
Variable fromWei : BN -> string.
Variable BN_toString : BN -> string.

Definition MemberForm_toState (this : MemberForm) : option (State.Member BN) :=
  tokens_ ← toBN (FriendlyField.value (tokens (FriendlyForm.fields this)));
  reputation_ ← toBN (FriendlyField.value (reputation (FriendlyForm.fields this)));
  Some (State.mkMember
          (FriendlyField.value (address (FriendlyForm.fields this)))
          tokens_ reputation_).

Definition MemberForm_fromState (state : State.Member BN) (this : MemberForm)
    : MemberForm :=
  FriendlyForm.set_fields
    (mkMemberFields
       (FriendlyField.set_value (State.address state)
          (address (FriendlyForm.fields this)))
       (FriendlyField.set_value (BN_toString (State.reputation state))
          (reputation (FriendlyForm.fields this)))
       (FriendlyField.set_value (BN_toString (State.tokens state))
          (tokens (FriendlyForm.fields this))))
    this.

Definition MembersForm_toState (this : MembersForm) : option (list (State.Member BN)) :=
  mapM MemberForm_toState (FriendlyForm.fields this).

Definition MembersForm_fromState (state : list (State.Member BN)) (this : MembersForm)
    : MembersForm :=
  FriendlyForm.set_fields
    (map (fun member => MemberForm_fromState member (CreateMemberForm None)) state)
    this.

(** The text a field of the genesis protocol form holds. *)
Definition field_text (field : GenesisProtocolFields -> FriendlyField.t)
    (this : GenesisProtocolForm) : string :=
  FriendlyField.value (field (FriendlyForm.fields this)).

Definition GenesisProtocolForm_toState (this : GenesisProtocolForm)
    : option (State.GenesisProtocol BN) :=
  let fields := FriendlyForm.fields this in
  a ← toBN (FriendlyField.value (queuedVoteRequiredPercentage fields));
  b ← toBN (FriendlyField.value (queuedVotePeriodLimit fields));
  c ← toBN (FriendlyField.value (thresholdConst fields));
  d ← toBN (FriendlyField.value (proposingRepReward fields)) ≫= (fun units =>
        toBN_of_wei (toWei units));
  e ← toBN (FriendlyField.value (minimumDaoBounty fields)) ≫= (fun units =>
        toBN_of_wei (toWei units));
  f ← toBN (FriendlyField.value (boostedVotePeriodLimit fields));
  g ← toBN (FriendlyField.value (daoBountyConst fields));
  h ← toBN (FriendlyField.value (activationTime fields));
  i ← toBN (FriendlyField.value (preBoostedVotePeriodLimit fields));
  j ← toBN (FriendlyField.value (quietEndingPeriod fields));
  k ← toBN (FriendlyField.value (votersReputationLossRatio fields));
  Some (State.new_GenesisProtocol
          (State.mkGenesisProtocolConfig a b c d e f g h i j
             (FriendlyField.value (voteOnBehalf fields)) k)).

Definition GenesisProtocolForm_fromState (state : State.GenesisProtocol BN)
    (this : GenesisProtocolForm) : GenesisProtocolForm :=
  let config := State.config state in
  let fields := FriendlyForm.fields this in
  FriendlyForm.set_fields
    (mkGenesisProtocolFields
       (FriendlyField.set_value
          (BN_toString (State.queuedVoteRequiredPercentage config))
          (queuedVoteRequiredPercentage fields))
       (FriendlyField.set_value (BN_toString (State.queuedVotePeriodLimit config))
          (queuedVotePeriodLimit fields))
       (FriendlyField.set_value (BN_toString (State.thresholdConst config))
          (thresholdConst fields))
       (FriendlyField.set_value (fromWei (State.proposingRepReward config))
          (proposingRepReward fields))
       (FriendlyField.set_value (fromWei (State.minimumDaoBounty config))
          (minimumDaoBounty fields))
       (FriendlyField.set_value (BN_toString (State.boostedVotePeriodLimit config))
          (boostedVotePeriodLimit fields))
       (FriendlyField.set_value (BN_toString (State.daoBountyConst config))
          (daoBountyConst fields))
       (FriendlyField.set_value (BN_toString (State.activationTime config))
          (activationTime fields))
       (FriendlyField.set_value (BN_toString (State.preBoostedVotePeriodLimit config))
          (preBoostedVotePeriodLimit fields))
       (FriendlyField.set_value (BN_toString (State.quietEndingPeriod config))
          (quietEndingPeriod fields))
       (FriendlyField.set_value (State.voteOnBehalf config) (voteOnBehalf fields))
       (FriendlyField.set_value
          (BN_toString (State.votersReputationLossRatio config))
          (votersReputationLossRatio fields)))
    this.

Definition GenericSchemeForm_toState (this : FriendlyForm.t GenericSchemeFields)
    : option (State.Scheme BN) :=
  votingMachine_ ← GenesisProtocolForm_toState (votingMachine (FriendlyForm.fields this));
  Some (State.GenericScheme
          (FriendlyField.value (contractToCall (FriendlyForm.fields this)))
          votingMachine_).

Definition GenericSchemeForm_fromState (state_contractToCall : string)
    (state_votingMachine : State.GenesisProtocol BN)
    (this : FriendlyForm.t GenericSchemeFields) : FriendlyForm.t GenericSchemeFields :=
  FriendlyForm.set_fields
    (mkGenericSchemeFields
       (GenesisProtocolForm_fromState state_votingMachine
          (votingMachine (FriendlyForm.fields this)))
       (FriendlyField.set_value state_contractToCall
          (contractToCall (FriendlyForm.fields this))))
    this.

(** [fromState] of a [ContributionRewardForm] and of a
    [SchemeRegistrarForm]. *)
Definition VotingMachineOnly_fromState (state_votingMachine : State.GenesisProtocol BN)
    (this : FriendlyForm.t VotingMachineOnly) : FriendlyForm.t VotingMachineOnly :=
  FriendlyForm.set_fields
    (mkVotingMachineOnly
       (GenesisProtocolForm_fromState state_votingMachine
          (only_votingMachine (FriendlyForm.fields this))))
    this.

Definition SchemeForm_toState (schemeForm : SchemeForm) : option (State.Scheme BN) :=
  match schemeForm with
  | GenericSchemeForm form => GenericSchemeForm_toState form
  | ContributionRewardForm form =>
      State.ContributionReward
        <$> GenesisProtocolForm_toState (only_votingMachine (FriendlyForm.fields form))
  | SchemeRegistrarForm form =>
      State.SchemeRegistrar
        <$> GenesisProtocolForm_toState (only_votingMachine (FriendlyForm.fields form))
  end.

Definition SchemesForm_toState (this : SchemesForm) : option (list (State.Scheme BN)) :=
  mapM SchemeForm_toState (FriendlyForm.fields this).

(** The callback of [state.map] in [fromState] of the schemes form: the
    [switch] on the type of the scheme. *)
Definition scheme_form_of (scheme : State.Scheme BN) : Completion SchemeForm :=
  match scheme with
  | State.ContributionReward votingMachine_ =>
      Returns (ContributionRewardForm
                 (VotingMachineOnly_fromState votingMachine_
                    (CreateContributionRewardForm None)))
  | State.SchemeRegistrar votingMachine_ =>
      Returns (SchemeRegistrarForm
                 (VotingMachineOnly_fromState votingMachine_
                    (CreateSchemeRegistrarForm None)))
  | State.GenericScheme contractToCall_ votingMachine_ =>
      Returns (GenericSchemeForm
                 (GenericSchemeForm_fromState contractToCall_ votingMachine_
                    (CreateGenericSchemeForm None)))
  | State.OtherScheme typeName =>
      Throws (mkError ("Unimplemented SchemeType " +:+ typeName))
  end.

(** [Array.prototype.map] with a callback that may throw. *)
Fixpoint map_or_throw {A B} (f : A -> Completion B) (l : list A)
    : Completion (list B) :=
  match l with
  | [] => Returns []
  | x :: rest =>
      match f x with
      | Throws e => Throws e
      | Returns y =>
          match map_or_throw f rest with
          | Throws e => Throws e
          | Returns ys => Returns (y :: ys)
          end
      end
  end.

(** [fromState] of the schemes form: [this.$] is assigned once the whole
    state is mapped. *)
Definition SchemesForm_fromState (state : list (State.Scheme BN)) (this : SchemesForm)
    : Completion SchemesForm :=
  match map_or_throw scheme_form_of state with
  | Throws e => Throws e
  | Returns forms => Returns (FriendlyForm.set_fields forms this)
  end.

Definition DAOForm_toState (this : DAOForm) : option (State.DAOcreatorState BN) :=
  let config_ := DAOConfigForm_toState (config (FriendlyForm.fields this)) in
  members_ ← MembersForm_toState (members (FriendlyForm.fields this));
  schemes_ ← SchemesForm_toState (schemes (FriendlyForm.fields this));
  Some (State.mkDAOcreatorState config_ members_ schemes_).

(** [fromState] of the whole form: the form afterwards, and the exception
    when it threw. *)
Definition DAOForm_fromState (state : State.DAOcreatorState BN) (this : DAOForm)
    : DAOForm * option Error :=
  let config_ :=
    DAOConfigForm_fromState (State.state_config state)
      (config (FriendlyForm.fields this)) in
  let members_ :=
    MembersForm_fromState (State.state_members state)
      (members (FriendlyForm.fields this)) in
  match SchemesForm_fromState (State.state_schemes state)
          (schemes (FriendlyForm.fields this)) with
  | Returns schemes_ =>
      (FriendlyForm.set_fields (mkDAOFields config_ members_ schemes_) this, None)
  | Throws e =>
      (FriendlyForm.set_fields
         (mkDAOFields config_ members_ (schemes (FriendlyForm.fields this))) this,
       Some e)
  end.

(** A big number that comes back from its text. *)
Definition survives_text (n : BN) : Prop := toBN (BN_toString n) = Some n.

(** An amount of wei that comes back from the text [fromWei] gives. *)
Definition survives_wei (n : BN) : Prop :=
  exists units, toBN (fromWei n) = Some units /\ toBN_of_wei (toWei units) = Some n.

Definition Member_survives (m : State.Member BN) : Prop :=
  survives_text (State.tokens m) /\ survives_text (State.reputation m).

Definition GenesisProtocol_survives (g : State.GenesisProtocol BN) : Prop :=
  let c := State.config g in
  survives_text (State.queuedVoteRequiredPercentage c)
  /\ survives_text (State.queuedVotePeriodLimit c)
  /\ survives_text (State.thresholdConst c)
  /\ survives_wei (State.proposingRepReward c)
  /\ survives_wei (State.minimumDaoBounty c)
  /\ survives_text (State.boostedVotePeriodLimit c)
  /\ survives_text (State.daoBountyConst c)
  /\ survives_text (State.activationTime c)
  /\ survives_text (State.preBoostedVotePeriodLimit c)
  /\ survives_text (State.quietEndingPeriod c)
  /\ survives_text (State.votersReputationLossRatio c).

Definition Scheme_survives (s : State.Scheme BN) : Prop :=
  match s with
  | State.GenericScheme _ g | State.ContributionReward g | State.SchemeRegistrar g =>
      GenesisProtocol_survives g
  | State.OtherScheme _ => False
  end.

Definition implemented (s : State.Scheme BN) : Prop :=
  match s with
  | State.OtherScheme _ => False
  | _ => True
  end.

(** The kind of a scheme form is the type of the scheme. *)
Definition same_kind (s : State.Scheme BN) (f : SchemeForm) : Prop :=
  match s, f with
  | State.GenericScheme _ _, GenericSchemeForm _ => True
  | State.ContributionReward _, ContributionRewardForm _ => True
  | State.SchemeRegistrar _, SchemeRegistrarForm _ => True
  | _, _ => False
  end.

(** ** Facts *)

(** X15: the configuration form and its state go both ways: [toState]
    after [fromState] gives the state back, [fromState] of the form's own
    state changes nothing, and [fromState] touches the values only, never
    the names, descriptions and validators of the fields. A form created
    from another has the other's values. *)
Theorem DAOConfigForm_roundtrip (state : State.DAOConfig) (this : DAOConfigForm) :
  DAOConfigForm_toState (DAOConfigForm_fromState state this) = state
  /\ DAOConfigForm_fromState (DAOConfigForm_toState this) this = this
  /\ FriendlyField.same_settings
       (daoName (FriendlyForm.fields (DAOConfigForm_fromState state this)))
       (daoName (FriendlyForm.fields this))
  /\ FriendlyField.same_settings
       (tokenName (FriendlyForm.fields (DAOConfigForm_fromState state this)))
       (tokenName (FriendlyForm.fields this))
  /\ FriendlyField.same_settings
       (tokenSymbol (FriendlyForm.fields (DAOConfigForm_fromState state this)))
       (tokenSymbol (FriendlyForm.fields this))
  /\ DAOConfigForm_toState (CreateDAOConfigForm (Some this))
     = DAOConfigForm_toState this.
Proof.
  destruct state as [n1 n2 n3].
  destruct this as [[[v1 c1 d1 e1] [v2 c2 d2 e2] [v3 c3 d3 e3]] calls name desc].
  repeat split.
Qed.

Lemma MemberForm_toState_fromState (m : State.Member BN) (this : MemberForm) :
  Member_survives m ->
  MemberForm_toState (MemberForm_fromState m this) = Some m.
Proof.
  intros [Ht Hr]. destruct m as [a t r]. unfold survives_text in Ht, Hr.
  unfold MemberForm_toState, MemberForm_fromState. cbn in *.
  rewrite Ht. cbn. rewrite Hr. reflexivity.
Qed.

(** X16: a member whose two numbers come back from their texts comes back
    from the member form: [toState] after [fromState] gives the member,
    with the tokens read from the tokens field and the reputation from the
    reputation field, whatever the form held before. *)
Theorem MemberForm_roundtrip (m : State.Member BN) (this : MemberForm) :
  Member_survives m ->
  MemberForm_toState (MemberForm_fromState m this) = Some m
  /\ FriendlyField.value (address (FriendlyForm.fields (MemberForm_fromState m this)))
     = State.address m
  /\ FriendlyField.value (tokens (FriendlyForm.fields (MemberForm_fromState m this)))
     = BN_toString (State.tokens m)
  /\ FriendlyField.value (reputation (FriendlyForm.fields (MemberForm_fromState m this)))
     = BN_toString (State.reputation m).
Proof.
  intros Hm. split; [apply MemberForm_toState_fromState; exact Hm|].
  repeat split.
Qed.

(** X17: [toState] of a member form throws exactly when the text of the
    tokens or of the reputation is no number for [toBN]; the address is
    passed on as it is, empty or not. *)
Theorem MemberForm_toState_throws (this : MemberForm) :
  MemberForm_toState this = None
  <-> toBN (FriendlyField.value (tokens (FriendlyForm.fields this))) = None
      \/ toBN (FriendlyField.value (reputation (FriendlyForm.fields this))) = None.
Proof.
  unfold MemberForm_toState.
  destruct (toBN (FriendlyField.value (tokens (FriendlyForm.fields this)))) as [t|];
    destruct (toBN (FriendlyField.value (reputation (FriendlyForm.fields this))))
      as [r|]; cbn; split; intros H; auto; try discriminate;
    destruct H; discriminate.
Qed.

Lemma MembersForm_toState_fromState (state : list (State.Member BN))
    (this : MembersForm) :
  Forall Member_survives state ->
  MembersForm_toState (MembersForm_fromState state this) = Some state.
Proof.
  intros Hall. unfold MembersForm_toState, MembersForm_fromState. cbn.
  apply mapM_Some_2. induction Hall as [|m ms Hm _ IH]; cbn; constructor.
  - apply MemberForm_toState_fromState. exact Hm.
  - exact IH.
Qed.

(** X18: [fromState] of the members form replaces the member forms it
    held by one new form for each member of the state, in their order; when
    the numbers of the members come back from their texts, [toState] gives
    the members back. *)
Theorem MembersForm_roundtrip (state : list (State.Member BN)) (this : MembersForm) :
  Forall Member_survives state ->
  MembersForm_toState (MembersForm_fromState state this) = Some state
  /\ length (FriendlyForm.fields (MembersForm_fromState state this)) = length state
  /\ (forall i member,
        state !! i = Some member ->
        FriendlyForm.fields (MembersForm_fromState state this) !! i
        = Some (MemberForm_fromState member (CreateMemberForm None)))
  /\ FriendlyForm.validator_calls (MembersForm_fromState state this)
     = FriendlyForm.validator_calls this.
Proof.
  intros Hall. split; [apply MembersForm_toState_fromState; exact Hall|].
  cbn. rewrite length_map. split; [reflexivity|]. split; [|reflexivity].
  intros i member Hi.
  change (map ?f ?l) with (f <$> l). rewrite list_lookup_fmap, Hi. reflexivity.
Qed.

Lemma GenesisProtocolForm_toState_fromState (g : State.GenesisProtocol BN)
    (this : GenesisProtocolForm) :
  GenesisProtocol_survives g ->
  GenesisProtocolForm_toState (GenesisProtocolForm_fromState g this) = Some g.
Proof.
  destruct g as [[a b c d e f g h i j v k]].
  unfold GenesisProtocol_survives, survives_text, survives_wei. cbn.
  intros (Ha & Hb & Hc & (ud & Hd1 & Hd2) & (ue & He1 & He2)
          & Hf & Hg & Hh & Hi & Hj & Hk).
  unfold GenesisProtocolForm_toState, GenesisProtocolForm_fromState. cbn.
  rewrite Ha; cbn. rewrite Hb; cbn. rewrite Hc; cbn.
  rewrite Hd1; cbn. rewrite Hd2; cbn. rewrite He1; cbn. rewrite He2; cbn.
  rewrite Hf; cbn. rewrite Hg; cbn. rewrite Hh; cbn. rewrite Hi; cbn.
  rewrite Hj; cbn. rewrite Hk; cbn. reflexivity.
Qed.

(** X19: the twelve fields of the genesis protocol form are wired to the
    twelve parameters of the protocol, each to its own. [fromState] writes
    into every field the text of the parameter of its name ([fromWei] of
    the proposing reward and of the minimum bounty, [toString] of the
    other numbers, the address to vote on behalf of as it is); [toState],
    where it returns, has read every parameter from the field of its name
    ([toBN] of the text, and for the two amounts [toBN] of [toWei] of it).
    So a protocol whose numbers come back from their texts comes back from
    the form, whatever the form held before. *)
Theorem GenesisProtocolForm_roundtrip (g : State.GenesisProtocol BN)
    (this : GenesisProtocolForm) :
  (field_text queuedVoteRequiredPercentage (GenesisProtocolForm_fromState g this)
     = BN_toString (State.queuedVoteRequiredPercentage (State.config g))
   /\ field_text queuedVotePeriodLimit (GenesisProtocolForm_fromState g this)
     = BN_toString (State.queuedVotePeriodLimit (State.config g))
   /\ field_text thresholdConst (GenesisProtocolForm_fromState g this)
     = BN_toString (State.thresholdConst (State.config g))
   /\ field_text proposingRepReward (GenesisProtocolForm_fromState g this)
     = fromWei (State.proposingRepReward (State.config g))
   /\ field_text minimumDaoBounty (GenesisProtocolForm_fromState g this)
     = fromWei (State.minimumDaoBounty (State.config g))
   /\ field_text boostedVotePeriodLimit (GenesisProtocolForm_fromState g this)
     = BN_toString (State.boostedVotePeriodLimit (State.config g))
   /\ field_text daoBountyConst (GenesisProtocolForm_fromState g this)
     = BN_toString (State.daoBountyConst (State.config g))
   /\ field_text activationTime (GenesisProtocolForm_fromState g this)
     = BN_toString (State.activationTime (State.config g))
   /\ field_text preBoostedVotePeriodLimit (GenesisProtocolForm_fromState g this)
     = BN_toString (State.preBoostedVotePeriodLimit (State.config g))
   /\ field_text quietEndingPeriod (GenesisProtocolForm_fromState g this)
     = BN_toString (State.quietEndingPeriod (State.config g))
   /\ field_text voteOnBehalf (GenesisProtocolForm_fromState g this)
     = State.voteOnBehalf (State.config g)
   /\ field_text votersReputationLossRatio (GenesisProtocolForm_fromState g this)
     = BN_toString (State.votersReputationLossRatio (State.config g)))
  /\ (forall read,
        GenesisProtocolForm_toState this = Some read ->
        toBN (field_text queuedVoteRequiredPercentage this)
        = Some (State.queuedVoteRequiredPercentage (State.config read))
        /\ toBN (field_text queuedVotePeriodLimit this)
        = Some (State.queuedVotePeriodLimit (State.config read))
        /\ toBN (field_text thresholdConst this)
        = Some (State.thresholdConst (State.config read))
        /\ (exists units,
            toBN (field_text proposingRepReward this) = Some units
            /\ toBN_of_wei (toWei units)
               = Some (State.proposingRepReward (State.config read)))
        /\ (exists units,
            toBN (field_text minimumDaoBounty this) = Some units
            /\ toBN_of_wei (toWei units)
               = Some (State.minimumDaoBounty (State.config read)))
        /\ toBN (field_text boostedVotePeriodLimit this)
        = Some (State.boostedVotePeriodLimit (State.config read))
        /\ toBN (field_text daoBountyConst this)
        = Some (State.daoBountyConst (State.config read))
        /\ toBN (field_text activationTime this)
        = Some (State.activationTime (State.config read))
        /\ toBN (field_text preBoostedVotePeriodLimit this)
        = Some (State.preBoostedVotePeriodLimit (State.config read))
        /\ toBN (field_text quietEndingPeriod this)
        = Some (State.quietEndingPeriod (State.config read))
        /\ field_text voteOnBehalf this = State.voteOnBehalf (State.config read)
        /\ toBN (field_text votersReputationLossRatio this)
        = Some (State.votersReputationLossRatio (State.config read)))
  /\ (GenesisProtocol_survives g ->
      GenesisProtocolForm_toState (GenesisProtocolForm_fromState g this) = Some g)
  /\ FriendlyForm.displayName (GenesisProtocolForm_fromState g this)
     = FriendlyForm.displayName this.
Proof.
  split; [repeat split|]. split; [|split; [|reflexivity]].
  - intros read Hread. unfold GenesisProtocolForm_toState in Hread.
    unfold field_text.
    repeat match type of Hread with
           | context [toBN ?text] =>
               destruct (toBN text) as [?n|] eqn:?; cbn in Hread;
               [|discriminate Hread]
           | context [toBN_of_wei ?amount] =>
               destruct (toBN_of_wei amount) as [?n|] eqn:?; cbn in Hread;
               [|discriminate Hread]
           end.
    injection Hread as <-. cbn.
    repeat split; eauto.
  - apply GenesisProtocolForm_toState_fromState.
Qed.

Lemma scheme_form_of_survivor (s : State.Scheme BN) :
  Scheme_survives s ->
  exists form,
    scheme_form_of s = Returns form
    /\ same_kind s form
    /\ SchemeForm_toState form = Some s.
Proof.
  destruct s as [contract g|g|g|name]; cbn [Scheme_survives]; intros Hs;
    [| | |contradiction]; eexists; (split; [reflexivity|]); (split; [exact I|]); cbn.
  - unfold GenericSchemeForm_toState. cbn.
    rewrite (GenesisProtocolForm_toState_fromState g _ Hs). reflexivity.
  - rewrite (GenesisProtocolForm_toState_fromState g _ Hs). reflexivity.
  - rewrite (GenesisProtocolForm_toState_fromState g _ Hs). reflexivity.
Qed.

Lemma map_or_throw_survivors (state : list (State.Scheme BN)) :
  Forall Scheme_survives state ->
  exists forms,
    map_or_throw scheme_form_of state = Returns forms
    /\ Forall2 same_kind state forms
    /\ mapM SchemeForm_toState forms = Some state.
Proof.
  induction 1 as [|s ss Hs _ (forms & Hmap & Hkind & Hback)].
  - exists []. repeat split. constructor.
  - destruct (scheme_form_of_survivor s Hs) as (form & Hform & Hk & Hb).
    exists (form :: forms). cbn. rewrite Hform, Hmap.
    split; [reflexivity|]. split; [constructor; assumption|].
    rewrite Hb. cbn. rewrite Hback. reflexivity.
Qed.

(** X20: [fromState] of the schemes form gives one scheme form for each
    scheme of the state, in their order and each of the kind of its scheme;
    when the numbers of the voting machines come back from their texts,
    [toState] gives the schemes back. *)
Theorem SchemesForm_roundtrip (state : list (State.Scheme BN)) (this : SchemesForm) :
  Forall Scheme_survives state ->
  exists forms,
    SchemesForm_fromState state this = Returns (FriendlyForm.set_fields forms this)
    /\ Forall2 same_kind state forms
    /\ SchemesForm_toState (FriendlyForm.set_fields forms this) = Some state.
Proof.
  intros Hall.
  destruct (map_or_throw_survivors state Hall) as (forms & Hmap & Hkind & Hback).
  exists forms. unfold SchemesForm_fromState. rewrite Hmap.
  split; [reflexivity|]. split; [exact Hkind | exact Hback].
Qed.

Lemma map_or_throw_implemented (before : list (State.Scheme BN)) :
  Forall implemented before ->
  exists forms, map_or_throw scheme_form_of before = Returns forms.
Proof.
  induction 1 as [|s ss Hs _ [forms Hmap]]; [exists []; reflexivity|].
  destruct s as [contract g|g|g|name]; [| | |contradiction];
    eexists; cbn; rewrite Hmap; reflexivity.
Qed.

Lemma map_or_throw_unimplemented (before after : list (State.Scheme BN)) typeName :
  Forall implemented before ->
  map_or_throw scheme_form_of (before ++ State.OtherScheme typeName :: after)
  = Throws (mkError ("Unimplemented SchemeType " +:+ typeName)).
Proof.
  induction 1 as [|s ss Hs _ IH]; [reflexivity|].
  destruct s as [contract g|g|g|name]; [| | |contradiction]; cbn;
    rewrite IH; reflexivity.
Qed.

Lemma SchemesForm_fromState_throws_at (before after : list (State.Scheme BN))
    typeName (this : SchemesForm) :
  Forall implemented before ->
  SchemesForm_fromState (before ++ State.OtherScheme typeName :: after) this
  = Throws (mkError ("Unimplemented SchemeType " +:+ typeName)).
Proof.
  intros Hall. unfold SchemesForm_fromState.
  rewrite (map_or_throw_unimplemented before after typeName Hall). reflexivity.
Qed.

(** X21: a state with a scheme of a type the forms do not implement makes
    [fromState] of the schemes form throw, whatever comes after that
    scheme; the message names the type of the first such scheme. *)
Theorem SchemesForm_fromState_unimplemented
    (before after : list (State.Scheme BN)) typeName (this : SchemesForm) :
  Forall implemented before ->
  SchemesForm_fromState (before ++ State.OtherScheme typeName :: after) this
  = Throws (mkError ("Unimplemented SchemeType " +:+ typeName)).
Proof.
  intros Hall. unfold SchemesForm_fromState.
  rewrite (map_or_throw_unimplemented before after typeName Hall). reflexivity.
Qed.

(** X22: a DAO form created from another keeps the configuration and the
    members of the other and drops its schemes: its state is the state of
    the other's configuration and members, with no scheme, also when the
    schemes of the other have no state. *)
Theorem CreateDAOForm_drops_schemes (this : DAOForm) :
  FriendlyForm.fields (schemes (FriendlyForm.fields (CreateDAOForm (Some this)))) = []
  /\ DAOForm_toState (CreateDAOForm (Some this))
     = (members_ ← MembersForm_toState (members (FriendlyForm.fields this));
        Some (State.mkDAOcreatorState
                (DAOConfigForm_toState (config (FriendlyForm.fields this)))
                members_ [])).
Proof.
  split; [reflexivity|].
  unfold DAOForm_toState, MembersForm_toState. cbn. rewrite map_id.
  destruct (mapM MemberForm_toState
              (FriendlyForm.fields (members (FriendlyForm.fields this))));
    reflexivity.
Qed.

(** X23: a state of the DAO whose numbers come back from their texts
    comes back from the DAO form: [fromState] does not throw, and [toState]
    of the form it leaves is the state. *)
Theorem DAOForm_roundtrip (state : State.DAOcreatorState BN) (this : DAOForm) :
  Forall Member_survives (State.state_members state) ->
  Forall Scheme_survives (State.state_schemes state) ->
  (DAOForm_fromState state this).2 = None
  /\ DAOForm_toState (DAOForm_fromState state this).1 = Some state.
Proof.
  intros Hmembers Hschemes. destruct state as [c ms ss]. cbn in Hmembers, Hschemes.
  destruct (map_or_throw_survivors ss Hschemes) as (forms & Hmap & _ & Hback).
  unfold DAOForm_fromState, SchemesForm_fromState.
  cbn [State.state_config State.state_members State.state_schemes].
  rewrite Hmap. split; [reflexivity|].
  unfold DAOForm_toState. cbn [fst FriendlyForm.fields FriendlyForm.set_fields
                                 config members schemes].
  rewrite (MembersForm_toState_fromState ms _ Hmembers). cbn.
  unfold SchemesForm_toState. cbn. rewrite Hback. cbn.
  destruct c as [n1 n2 n3]. reflexivity.
Qed.

(** X24: [fromState] of the DAO form is not all or nothing. With a scheme
    of a type the forms do not implement it throws, but only after it wrote
    the configuration and the members of the state into the form: the form
    is left with the new configuration, the new members and its old
    schemes. *)
Theorem DAOForm_fromState_partial (state : State.DAOcreatorState BN)
    (before after : list (State.Scheme BN)) typeName (this : DAOForm) :
  State.state_schemes state = before ++ State.OtherScheme typeName :: after ->
  Forall implemented before ->
  (DAOForm_fromState state this).2
  = Some (mkError ("Unimplemented SchemeType " +:+ typeName))
  /\ DAOConfigForm_toState
       (config (FriendlyForm.fields (DAOForm_fromState state this).1))
     = State.state_config state
  /\ members (FriendlyForm.fields (DAOForm_fromState state this).1)
     = MembersForm_fromState (State.state_members state)
         (members (FriendlyForm.fields this))
  /\ schemes (FriendlyForm.fields (DAOForm_fromState state this).1)
     = schemes (FriendlyForm.fields this).
Proof.
  intros Hstate Hall. unfold DAOForm_fromState. rewrite Hstate.
  rewrite (SchemesForm_fromState_throws_at before after typeName _ Hall).
  cbn. destruct (State.state_config state) as [n1 n2 n3]. repeat split.
Qed.

End Conversions.

End Forms.

(** ** The forms on actual data *)

Abbreviation a_member :=
  (Forms.State.mkMember "0x00000000000000000000000000000000000000a1" 100%N 250%N).

Abbreviation a_protocol :=
  (Forms.State.new_GenesisProtocol
     (Forms.State.mkGenesisProtocolConfig 50%N 1800%N 2000%N
        (5 * Web3.ether)%N (100 * Web3.ether)%N 259200%N 75%N 0%N 1814400%N 86400%N
        "0x0000000000000000000000000000000000000000" 1%N)).

Abbreviation some_schemes :=
  [Forms.State.ContributionReward a_protocol;
   Forms.State.GenericScheme "0x00000000000000000000000000000000000000c7" a_protocol;
   Forms.State.SchemeRegistrar a_protocol].

Abbreviation a_state :=
  (Forms.State.mkDAOcreatorState
     (Forms.State.mkDAOConfig "dOrg" "dOrg token" "DORG") [a_member] some_schemes).

Lemma a_member_survives : Forms.Member_survives Web3.toBN Web3.toString a_member.
Proof. split; vm_compute; reflexivity. Qed.

Lemma a_protocol_survives :
  Forms.GenesisProtocol_survives Web3.toBN Web3.toWei Some Web3.fromWei Web3.toString
    a_protocol.
Proof.
  unfold Forms.GenesisProtocol_survives, Forms.survives_text, Forms.survives_wei.
  cbn [Forms.State.config Forms.State.queuedVoteRequiredPercentage
       Forms.State.queuedVotePeriodLimit Forms.State.thresholdConst
       Forms.State.proposingRepReward Forms.State.minimumDaoBounty
       Forms.State.boostedVotePeriodLimit Forms.State.daoBountyConst
       Forms.State.activationTime Forms.State.preBoostedVotePeriodLimit
       Forms.State.quietEndingPeriod Forms.State.votersReputationLossRatio].
  repeat split; try (vm_compute; reflexivity).
  - exists 5%N. split; vm_compute; reflexivity.
  - exists 100%N. split; vm_compute; reflexivity.
Qed.

Lemma some_schemes_survive :
  Forall (Forms.Scheme_survives Web3.toBN Web3.toWei Some Web3.fromWei Web3.toString)
         some_schemes.
Proof.
  repeat (apply List.Forall_cons; [exact a_protocol_survives|]). apply List.Forall_nil.
Qed.

(** An amount that is no whole number of ether has a text [toBN] refuses:
    in this model such a reward does not come back from the form. *)
Example half_an_ether :
  Web3.fromWei (15 * 10 ^ 17) = "1.5" /\ Web3.toBN "1.5" = None.
Proof. split; vm_compute; reflexivity. Qed.

Lemma MemberForm_roundtrip_witness :
  Forms.MemberForm_toState Web3.toBN
    (Forms.MemberForm_fromState Web3.toString a_member (Forms.CreateMemberForm None))
  = Some a_member.
Proof.
  exact (proj1 (Forms.MemberForm_roundtrip Web3.toBN Web3.toString a_member
                  (Forms.CreateMemberForm None) a_member_survives)).
Defined.

Lemma MembersForm_roundtrip_witness :
  Forms.MembersForm_toState Web3.toBN
    (Forms.MembersForm_fromState Web3.toString [a_member; a_member]
       (Forms.CreateMembersForm None))
  = Some [a_member; a_member].
Proof.
  exact (proj1 (Forms.MembersForm_roundtrip Web3.toBN Web3.toString
                  [a_member; a_member] (Forms.CreateMembersForm None)
                  (@List.Forall_cons _ _ _ _ a_member_survives
                     (@List.Forall_cons _ _ _ _ a_member_survives (@List.Forall_nil _ _))))).
Defined.

Lemma GenesisProtocolForm_roundtrip_witness :
  Forms.GenesisProtocolForm_toState Web3.toBN Web3.toWei Some
    (Forms.GenesisProtocolForm_fromState Web3.fromWei Web3.toString a_protocol
       (Forms.CreateGenesisProtocolForm None))
  = Some a_protocol.
Proof.
  exact (proj1 (proj2 (proj2 (Forms.GenesisProtocolForm_roundtrip
                                Web3.toBN Web3.toWei Some Web3.fromWei Web3.toString
                                a_protocol (Forms.CreateGenesisProtocolForm None))))
               a_protocol_survives).
Defined.

Lemma SchemesForm_roundtrip_witness :
  exists forms,
    Forms.SchemesForm_fromState Web3.fromWei Web3.toString some_schemes
      (Forms.CreateSchemesForm None)
    = Returns (Forms.FriendlyForm.set_fields forms (Forms.CreateSchemesForm None))
    /\ Forall2 Forms.same_kind some_schemes forms
    /\ Forms.SchemesForm_toState Web3.toBN Web3.toWei Some
         (Forms.FriendlyForm.set_fields forms (Forms.CreateSchemesForm None))
       = Some some_schemes.
Proof.
  exact (Forms.SchemesForm_roundtrip
           Web3.toBN Web3.toWei Some Web3.fromWei Web3.toString some_schemes
           (Forms.CreateSchemesForm None) some_schemes_survive).
Defined.

Lemma SchemesForm_fromState_unimplemented_witness :
  Forms.SchemesForm_fromState Web3.fromWei Web3.toString
    ([Forms.State.ContributionReward a_protocol]
     ++ Forms.State.OtherScheme "UGenericScheme"
        :: [Forms.State.OtherScheme "Auction4Reputation"])
    (Forms.CreateSchemesForm None)
  = Throws (mkError ("Unimplemented SchemeType " +:+ "UGenericScheme")).
Proof.
  exact (Forms.SchemesForm_fromState_unimplemented Web3.fromWei Web3.toString
           [Forms.State.ContributionReward a_protocol]
           [Forms.State.OtherScheme "Auction4Reputation"] "UGenericScheme"
           (Forms.CreateSchemesForm None)
           (@List.Forall_cons _ Forms.implemented
              (Forms.State.ContributionReward a_protocol) [] I
              (@List.Forall_nil _ _))).
Defined.

Lemma DAOForm_roundtrip_witness :
  Forms.DAOForm_toState Web3.toBN Web3.toWei Some
    (Forms.DAOForm_fromState Web3.fromWei Web3.toString a_state
       (Forms.CreateDAOForm None)).1
  = Some a_state.
Proof.
  exact (proj2 (Forms.DAOForm_roundtrip
                  Web3.toBN Web3.toWei Some Web3.fromWei Web3.toString a_state
                  (Forms.CreateDAOForm None)
                  (@List.Forall_cons _ _ _ _ a_member_survives (@List.Forall_nil _ _))
                  some_schemes_survive)).
Defined.

Lemma DAOForm_fromState_partial_witness :
  (Forms.DAOForm_fromState Web3.fromWei Web3.toString
     (Forms.State.mkDAOcreatorState
        (Forms.State.mkDAOConfig "dOrg" "dOrg token" "DORG") [a_member]
        ([] ++ Forms.State.OtherScheme "UGenericScheme" :: some_schemes))
     (Forms.CreateDAOForm None)).2
  = Some (mkError ("Unimplemented SchemeType " +:+ "UGenericScheme"))
  /\ Forms.DAOConfigForm_toState
       (Forms.config (Forms.FriendlyForm.fields
          (Forms.DAOForm_fromState Web3.fromWei Web3.toString
             (Forms.State.mkDAOcreatorState
                (Forms.State.mkDAOConfig "dOrg" "dOrg token" "DORG") [a_member]
                ([] ++ Forms.State.OtherScheme "UGenericScheme" :: some_schemes))
             (Forms.CreateDAOForm None)).1))
     = Forms.State.mkDAOConfig "dOrg" "dOrg token" "DORG".
Proof.
  pose proof (Forms.DAOForm_fromState_partial Web3.fromWei Web3.toString
                (Forms.State.mkDAOcreatorState
                   (Forms.State.mkDAOConfig "dOrg" "dOrg token" "DORG") [a_member]
                   ([] ++ Forms.State.OtherScheme "UGenericScheme" :: some_schemes))
                [] some_schemes "UGenericScheme" (Forms.CreateDAOForm None)
                eq_refl (@List.Forall_nil _ _)) as (H1 & H2 & _).
  exact (conj H1 H2).
Defined.

(** * The line graphic

    [LineGraphic] draws the positive entries of its data as the segments
    of one bar, each as wide as its share of the total. The numbers are
    doubles, and the shares are computed as the doubles they are. *)
Module LineGraphic.

Local Open Scope list_scope.

(** The first [n] characters of a string: [s.substr(0, n)]. *)
Fixpoint string_take (n : nat) (s : string) : string :=
  match n, s with
  | S n, String c rest => String c (string_take n rest)
  | _, _ => EmptyString
  end.

(** A string from its character [n] on: [s.substring(n)]. *)
Fixpoint string_drop (n : nat) (s : string) : string :=
  match n, s with
  | S n, String _ rest => string_drop n rest
  | _, _ => s
  end.

(** The label of a name: its first six characters, three dots and its last
    four characters. A negative start of [substring] counts as zero. *)
Definition short_name (name : string) : string :=
  string_take 6 name +:+ "..." +:+ string_drop (String.length name - 4) name.

(** A value of the data: a string or a number. *)
Inductive Cell : Type :=
| Text (s : string)
| Num (n : number).

Definition colours : list string := ["success"; "info"; "warning"; "danger"].

Record ILineConfig : Type := mkConfig {
  showPercentage : bool;
  height : string;
  symbol : option string;
  dataKey : string;
  nameKey : string
}.

(** What is rendered for one entry: the [div] with its width in percent,
    the [MDBProgress] in it, and the texts of the tooltip. *)
Record Segment : Type := mkSegment {
  key : nat;
  width : number;
  className : string;
  progress_height : string;
  color : option string;
  progress_text : option string;
  seed : string;
  label : string;
  amount : string;
  share : string
}.

Record Container (Style : Type) : Type := mkContainer {
  style : option Style;
  children : list Segment
}.
Arguments mkContainer {Style} style children.
Arguments style {Style} _.
Arguments children {Style} _.

Section Graphic.

Context {Style : Type}.

(** The text of a number in a template literal, and the number a string
    is converted to where a number is asked for ([NaN] when it is none). *)
Variable number_text : number -> string.
Variable to_number : string -> number.

(** [x > 0] on numbers; [NaN] is not. *)
Definition positive (x : number) : bool := (0 <? x)%float.

(** The number a value is used as in arithmetic and comparisons; a missing
    value, [undefined], is [NaN]. *)
Definition as_number (value : option Cell) : number :=
  match value with
  | Some (Num n) => n
  | Some (Text s) => to_number s
  | None => PrimFloat.nan
  end.

(** The text of a value in a template literal. *)
Definition as_text (value : option Cell) : string :=
  match value with
  | Some (Num n) => number_text n
  | Some (Text s) => s
  | None => "undefined"
  end.

(** The callback of [data.filter]: [value > 0]. *)
Definition is_positive (dataKey : string) (element : gmap string Cell) : bool :=
  positive (as_number (element !! dataKey)).

Definition TypeError : Error := mkError "TypeError".

Definition className_of (index count : nat) : string :=
  if (index =? 0)%nat && (index =? count - 1)%nat then "rounded-pill"
  else if (index =? 0)%nat then "rounded-left"
  else if (index =? count - 1)%nat then "rounded-right"
  else EmptyString.

(** What is rendered for an entry with the name [name]. *)
Definition segment_for (total : number) (config : ILineConfig) (count : nat)
    (index : nat) (element : gmap string Cell) (name : string) : Segment :=
  let value := element !! dataKey config in
  let ratio := (as_number value / total * 100)%float in
  let percentage := string_take 4 (number_text ratio) in
  {| key := index;
     width := ratio;
     className := className_of index count;
     progress_height := height config;
     color := colours !! (index mod 4);
     progress_text :=
       if showPercentage config then Some (percentage +:+ "%") else None;
     seed := name;
     label := short_name name;
     amount := as_text value +:+ " " +:+ default "undefined" (symbol config);
     share := percentage +:+ "%" |}.

(** The callback of [cleanData.map]. A name that is no string has no
    [substr]: the call throws. *)
Definition render_segment (total : number) (config : ILineConfig) (count : nat)
    (index : nat) (element : gmap string Cell) : Completion Segment :=
  match element !! nameKey config with
  | Some (Text name) => Returns (segment_for total config count index element name)
  | _ => Throws TypeError
  end.

(** [Array.prototype.map] with its index and a callback that may throw. *)
Fixpoint imap_or_throw {A B} (f : nat -> A -> Completion B) (index : nat)
    (l : list A) : Completion (list B) :=
  match l with
  | [] => Returns []
  | x :: rest =>
      match f index x with
      | Throws e => Throws e
      | Returns y =>
          match imap_or_throw f (S index) rest with
          | Throws e => Throws e
          | Returns ys => Returns (y :: ys)
          end
      end
  end.

(** The component; [None] is the [null] it returns for a total of zero. *)
Definition LineGraphic (data : list (gmap string Cell)) (total : number)
    (config : ILineConfig) (style_ : option Style)
    : Completion (option (Container Style)) :=
  if (total =? 0)%float then Returns None
  else
    let cleanData := List.filter (is_positive (dataKey config)) data in
    match imap_or_throw (render_segment total config (length cleanData)) 0 cleanData with
    | Throws e => Throws e
    | Returns segments => Returns (Some (mkContainer style_ segments))
    end.

(** The name of an entry when it is a string. *)
Definition text_name (nameKey : string) (element : gmap string Cell) : option string :=
  match element !! nameKey with
  | Some (Text name) => Some name
  | _ => None
  end.

(** ** Facts *)

Lemma string_take_length n s : String.length (string_take n s) = n `min` String.length s.
Proof.
  revert s. induction n as [|n IH]; intros [|c s]; cbn; try reflexivity.
  rewrite IH. reflexivity.
Qed.

Lemma string_drop_length n s :
  String.length (string_drop n s) = String.length s - n.
Proof.
  revert s. induction n as [|n IH]; intros [|c s]; cbn; try reflexivity.
  apply IH.
Qed.

Lemma string_app_length (s1 s2 : string) :
  String.length (s1 +:+ s2) = String.length s1 + String.length s2.
Proof.
  induction s1 as [|c s1 IH]; [reflexivity|].
  change (S (String.length (s1 +:+ s2)) = S (String.length s1 + String.length s2)).
  rewrite IH. reflexivity.
Qed.

(** X25: the label of a name has the first six characters of the name,
    three dots and its last four characters: for a name of ten characters
    or more it has thirteen; a shorter name is not shortened at all, its
    label is longer than the name and shows some characters twice. *)
Theorem short_name_length name :
  String.length (short_name name)
  = 6 `min` String.length name + 3 + 4 `min` String.length name
  /\ (10 <= String.length name -> String.length (short_name name) = 13)
  /\ (String.length name < 10 -> String.length name < String.length (short_name name))
  /\ (String.length name <= 4 -> short_name name = name +:+ "..." +:+ name).
Proof.
  clear number_text to_number.
  assert (Hlen : String.length (short_name name)
                 = 6 `min` String.length name + 3 + 4 `min` String.length name).
  { unfold short_name.
    rewrite !string_app_length, string_take_length, string_drop_length.
    change (String.length "...") with 3. lia. }
  split; [exact Hlen|]. split; [lia|]. split; [lia|].
  intros Hshort. unfold short_name.
  replace (String.length name - 4) with 0 by lia.
  assert (Htake : forall n s, String.length s <= n -> string_take n s = s).
  { induction n as [|n IH]; intros [|c s] Hs; cbn in *; try reflexivity; try lia.
    rewrite IH by lia. reflexivity. }
  rewrite Htake by lia. destruct name; reflexivity.
Qed.

Lemma imap_or_throw_named total config count k (clean : list (gmap string Cell)) :
  Forall (fun element => is_Some (text_name (nameKey config) element)) clean ->
  imap_or_throw (render_segment total config count) k clean
  = Returns (imap (fun i element =>
                     segment_for total config count (k + i) element
                       (default EmptyString (text_name (nameKey config) element)))
                  clean).
Proof.
  intros Hall. revert k. induction Hall as [|element rest [name Hname] _ IH]; intros k.
  - reflexivity.
  - cbn [imap_or_throw].
    assert (Hr : render_segment total config count k element
                 = Returns (segment_for total config count k element name)).
    { unfold render_segment. unfold text_name in Hname.
      destruct (element !! nameKey config) as [[name'|n]|]; try discriminate Hname.
      injection Hname as ->. reflexivity. }
    rewrite Hr, IH, imap_cons, Hname. cbn [default]. rewrite Nat.add_0_r.
    do 2 f_equal. apply imap_ext. intros i x _. cbn. rewrite Nat.add_succ_r.
    reflexivity.
Qed.

Lemma imap_or_throw_unnamed total config count k (clean : list (gmap string Cell)) :
  Exists (fun element => text_name (nameKey config) element = None) clean ->
  imap_or_throw (render_segment total config count) k clean = Throws TypeError.
Proof.
  intros Hex. revert k. induction Hex as [element rest Hnone|element rest _ IH]; intros k.
  - cbn [imap_or_throw]. unfold render_segment, text_name in *.
    destruct (element !! nameKey config) as [[name|n]|]; try discriminate Hnone;
      reflexivity.
  - cbn [imap_or_throw]. rewrite IH.
    destruct (render_segment total config count k element) as [seg|e] eqn:Hr;
      [reflexivity|].
    unfold render_segment in Hr.
    destruct (element !! nameKey config) as [[name|n]|]; try discriminate Hr;
      injection Hr as <-; reflexivity.
Qed.

(** The component when every positive entry has a name. *)
Lemma LineGraphic_named data total config (style_ : option Style) :
  (total =? 0)%float = false ->
  Forall (fun element => is_Some (text_name (nameKey config) element))
         (List.filter (is_positive (dataKey config)) data) ->
  LineGraphic data total config style_
  = Returns (Some (mkContainer style_
      (imap (fun i element =>
               segment_for total config
                 (length (List.filter (is_positive (dataKey config)) data))
                 i element (default EmptyString (text_name (nameKey config) element)))
            (List.filter (is_positive (dataKey config)) data)))).
Proof.
  intros Htotal Hall. unfold LineGraphic. rewrite Htotal.
  rewrite (imap_or_throw_named total config _ 0 _ Hall). reflexivity.
Qed.

(** What the component rendered, read back from its result. *)
Lemma LineGraphic_Returns_inv data total config (style_ : option Style) c :
  LineGraphic data total config style_ = Returns (Some c) ->
  (total =? 0)%float = false
  /\ Forall (fun element => is_Some (text_name (nameKey config) element))
            (List.filter (is_positive (dataKey config)) data)
  /\ c = mkContainer style_
      (imap (fun i element =>
               segment_for total config
                 (length (List.filter (is_positive (dataKey config)) data))
                 i element (default EmptyString (text_name (nameKey config) element)))
            (List.filter (is_positive (dataKey config)) data)).
Proof.
  intros Hc.
  destruct (total =? 0)%float eqn:Htotal.
  { unfold LineGraphic in Hc. rewrite Htotal in Hc. discriminate Hc. }
  destruct (decide (Forall (fun element =>
                              is_Some (text_name (nameKey config) element))
                           (List.filter (is_positive (dataKey config)) data)))
    as [Hall|Hnot].
  - rewrite (LineGraphic_named data total config style_ Htotal Hall) in Hc.
    injection Hc as <-. auto.
  - apply not_Forall_Exists in Hnot; [|solve_decision].
    unfold LineGraphic in Hc. rewrite Htotal in Hc.
    rewrite imap_or_throw_unnamed in Hc; [discriminate Hc|].
    eapply Exists_impl; [exact Hnot|]. cbn. intros element Hnone.
    destruct (text_name (nameKey config) element); [|reflexivity].
    exfalso. apply Hnone. eauto.
Qed.

(** X26: nothing to draw. For a total of zero the component returns
    [null] whatever the data are; for another total and data without a
    positive value it returns its container, empty: entries whose value is
    zero, negative, missing or no number do not count, and the names of
    such entries are not looked at. *)
Theorem LineGraphic_nothing_to_draw data total config (style_ : option Style) :
  ((total =? 0)%float = true -> LineGraphic data total config style_ = Returns None)
  /\ ((total =? 0)%float = false ->
      Forall (fun element => is_positive (dataKey config) element = false) data ->
      LineGraphic data total config style_ = Returns (Some (mkContainer style_ []))).
Proof.
  split.
  - intros Hzero. unfold LineGraphic. rewrite Hzero. reflexivity.
  - intros Htotal Hnone. unfold LineGraphic. rewrite Htotal.
    replace (List.filter (is_positive (dataKey config)) data) with
      (@nil (gmap string Cell)); [reflexivity|].
    induction Hnone as [|element rest Hel _ IH]; [reflexivity|].
    cbn [List.filter]. rewrite Hel. exact IH.
Qed.

(** X27: the segments are the entries with a positive value, in the
    order of the data: when the component renders a container, its
    segments are as many as those entries, the segment at [index] has the
    key [index], and the seeds of the segments are the names of those
    entries. *)
Theorem segments_are_the_positive_entries data total config (style_ : option Style) c :
  LineGraphic data total config style_ = Returns (Some c) ->
  length (children c) = length (List.filter (is_positive (dataKey config)) data)
  /\ (forall i segment, children c !! i = Some segment -> key segment = i)
  /\ Some <$> (seed <$> children c)
     = text_name (nameKey config)
         <$> List.filter (is_positive (dataKey config)) data
  /\ style c = style_.
Proof.
  intros Hc. apply LineGraphic_Returns_inv in Hc as (_ & Hall & ->). cbn.
  split; [apply length_imap|]. split; [|split; [|reflexivity]].
  - intros i segment. rewrite list_lookup_imap.
    destruct (List.filter (is_positive (dataKey config)) data !! i); [|discriminate].
    cbn. intros [= <-]. reflexivity.
  - rewrite <- list_fmap_compose, fmap_imap.
    generalize (length (List.filter (is_positive (dataKey config)) data)).
    intros count. revert Hall.
    generalize (List.filter (is_positive (dataKey config)) data). intros clean Hall.
    rewrite <- (imap_const (text_name (nameKey config))).
    apply imap_ext. intros i element Hi. cbn.
    rewrite Forall_lookup in Hall. destruct (Hall i element Hi) as [name ->].
    reflexivity.
Qed.

(** X28: an entry with a positive value whose name is missing or a
    number makes the component throw, unless the total is zero. *)
Theorem LineGraphic_throws_without_name data total config (style_ : option Style) :
  (total =? 0)%float = false ->
  Exists (fun element =>
            is_positive (dataKey config) element = true
            /\ text_name (nameKey config) element = None) data ->
  LineGraphic data total config style_ = Throws TypeError.
Proof.
  intros Htotal Hex. unfold LineGraphic. rewrite Htotal.
  rewrite imap_or_throw_unnamed; [reflexivity|].
  induction Hex as [element rest [Hpos Hnone]|element rest _ IH]; cbn [List.filter].
  - rewrite Hpos. apply Exists_cons_hd. exact Hnone.
  - destruct (is_positive (dataKey config) element); [apply Exists_cons_tl|]; exact IH.
Qed.

(** X29: the ends of the bar and its colours. A segment alone is a
    pill, otherwise the first segment is rounded on the left, the last on
    the right and no other; the colours go round the four colours in order,
    so that two neighbours never have the same colour. *)
Theorem segment_classes_and_colours data total config (style_ : option Style) c
    i segment :
  LineGraphic data total config style_ = Returns (Some c) ->
  children c !! i = Some segment ->
  (length (children c) = 1 -> className segment = "rounded-pill")
  /\ (1 < length (children c) -> i = 0 -> className segment = "rounded-left")
  /\ (1 < length (children c) -> i = length (children c) - 1 ->
      className segment = "rounded-right")
  /\ (0 < i -> i < length (children c) - 1 -> className segment = EmptyString)
  /\ color segment = colours !! (i mod 4)
  /\ is_Some (color segment)
  /\ (forall next, children c !! S i = Some next -> color next <> color segment).
Proof.
  intros Hc Hi. apply LineGraphic_Returns_inv in Hc as (_ & _ & ->).
  cbn [children] in *. rewrite length_imap.
  set (clean := List.filter (is_positive (dataKey config)) data) in *.
  assert (Hlt : i < length clean).
  { apply lookup_lt_Some in Hi. rewrite length_imap in Hi. exact Hi. }
  rewrite list_lookup_imap in Hi.
  destruct (clean !! i) as [element|]; [|discriminate Hi].
  cbn in Hi. injection Hi as <-. cbn [className color segment_for].
  assert (Hmod : i mod 4 < 4) by (apply Nat.mod_upper_bound; lia).
  unfold className_of.
  split; [|split; [|split; [|split; [|split; [|split]]]]].
  - intros Hone. rewrite Hone. assert (i = 0) as -> by lia. reflexivity.
  - intros Hmany ->.
    destruct (Nat.eqb_spec 0 (length clean - 1)) as [E|_]; [lia|reflexivity].
  - intros Hmany ->.
    destruct (Nat.eqb_spec (length clean - 1) 0) as [E|_]; [lia|].
    rewrite Nat.eqb_refl. reflexivity.
  - intros Hpos Hmid.
    destruct (Nat.eqb_spec i 0) as [E|_]; [lia|].
    destruct (Nat.eqb_spec i (length clean - 1)) as [E|_]; [lia|]. reflexivity.
  - reflexivity.
  - apply lookup_lt_is_Some_2. cbn. exact Hmod.
  - intros next. rewrite list_lookup_imap.
    destruct (clean !! S i) as [element'|]; [|discriminate].
    cbn [fmap option_fmap option_map]. intros [= <-]. cbn [color segment_for].
    assert (Hnext : S i mod 4 = (i mod 4 + 1) mod 4).
    { replace (S i) with (i + 1) by lia. rewrite Nat.Div0.add_mod_idemp_l. reflexivity. }
    rewrite Hnext.
    destruct (i mod 4) as [|[|[|[|n]]]]; cbn; try discriminate; lia.
Qed.

End Graphic.

End LineGraphic.

(** ** The line graphic on actual data *)

Abbreviation holders :=
  [ ({[ "address" := LineGraphic.Text "0x00000000000000000000000000000000000000a1";
        "reputation" := LineGraphic.Num 25 ]} : gmap string LineGraphic.Cell);
    {[ "address" := LineGraphic.Text "0x00000000000000000000000000000000000000b2";
       "reputation" := LineGraphic.Num 0 ]};
    {[ "address" := LineGraphic.Text "0x00000000000000000000000000000000000000c3";
       "reputation" := LineGraphic.Text "50" ]};
    {[ "reputation" := LineGraphic.Num (-5) ]};
    {[ "address" := LineGraphic.Text "0x00000000000000000000000000000000000000d4";
       "reputation" := LineGraphic.Num 25 ]} ].

Abbreviation reputation_bar :=
  (LineGraphic.mkConfig true "20px" (Some "REP") "reputation" "address").

Abbreviation draw :=
  (@LineGraphic.LineGraphic unit Decimal.text Decimal.number).

Example three_holders :
  exists c,
    draw holders 100 reputation_bar None = Returns (Some c)
    /\ LineGraphic.className <$> LineGraphic.children c
       = ["rounded-left"; EmptyString; "rounded-right"]
    /\ LineGraphic.color <$> LineGraphic.children c
       = [Some "success"; Some "info"; Some "warning"]
    /\ LineGraphic.label <$> LineGraphic.children c
       = ["0x0000...00a1"; "0x0000...00c3"; "0x0000...00d4"]
    /\ LineGraphic.amount <$> LineGraphic.children c = ["25 REP"; "50 REP"; "25 REP"]
    /\ LineGraphic.share <$> LineGraphic.children c = ["25%"; "50%"; "25%"].
Proof. eexists. split; [vm_compute; reflexivity|]. repeat split. Qed.

(** The shares are doubles, and the percentage shown is the text of the
    share cut after four characters, not rounded: 29 of 100 is the double
    28.999999999999996 and is shown as 28.9%. *)
Example cut_percentage :
  exists c,
    draw [{[ "address" := LineGraphic.Text "0x00000000000000000000000000000000000000a1";
             "reputation" := LineGraphic.Num 29 ]}] 100 reputation_bar None
    = Returns (Some c)
    /\ LineGraphic.width <$> LineGraphic.children c = [28.999999999999996%float]
    /\ LineGraphic.share <$> LineGraphic.children c = ["28.9%"].
Proof. eexists. split; [vm_compute; reflexivity|]. repeat split. Qed.

Lemma drawn_holders :
  draw holders 100 reputation_bar None
  = Returns (Some (LineGraphic.mkContainer None
      (imap (fun i element =>
               LineGraphic.segment_for Decimal.text Decimal.number 100
                 reputation_bar
                 (length (List.filter
                            (LineGraphic.is_positive Decimal.number "reputation")
                            holders))
                 i element
                 (default EmptyString (LineGraphic.text_name "address" element)))
            (List.filter (LineGraphic.is_positive Decimal.number "reputation")
                         holders)))).
Proof.
  apply LineGraphic.LineGraphic_named; [reflexivity|].
  vm_compute. repeat (apply List.Forall_cons; [eexists; reflexivity|]).
  apply List.Forall_nil.
Qed.

Lemma LineGraphic_nothing_to_draw_witness :
  draw holders 0 reputation_bar None = Returns None.
Proof.
  exact (proj1 (LineGraphic.LineGraphic_nothing_to_draw Decimal.text
                  Decimal.number holders 0 reputation_bar None)
               eq_refl).
Defined.

Lemma segments_are_the_positive_entries_witness :
  exists c,
    draw holders 100 reputation_bar None = Returns (Some c)
    /\ length (LineGraphic.children c) = 3.
Proof.
  eexists. split; [exact drawn_holders|].
  exact (proj1 (LineGraphic.segments_are_the_positive_entries Decimal.text
                  Decimal.number holders 100 reputation_bar None _ drawn_holders)).
Defined.

Lemma LineGraphic_throws_without_name_witness :
  draw ({[ "reputation" := LineGraphic.Num 5 ]} :: holders) 100 reputation_bar None
  = Throws LineGraphic.TypeError.
Proof.
  assert (Hnonzero : (100 =? 0)%float = false) by reflexivity.
  assert (Hunnamed :
            Exists (fun element =>
                      LineGraphic.is_positive Decimal.number "reputation" element = true
                      /\ LineGraphic.text_name "address" element = None)
                   ({[ "reputation" := LineGraphic.Num 5 ]} :: holders))
    by (apply Exists_cons_hd; split; reflexivity).
  exact (LineGraphic.LineGraphic_throws_without_name Decimal.text Decimal.number
           ({[ "reputation" := LineGraphic.Num 5 ]} :: holders) 100 reputation_bar None
           Hnonzero Hunnamed).
Defined.

Lemma segment_classes_and_colours_witness :
  exists segment,
    imap (fun i element =>
            LineGraphic.segment_for Decimal.text Decimal.number 100
              reputation_bar
              (length (List.filter
                         (LineGraphic.is_positive Decimal.number "reputation")
                         holders))
              i element
              (default EmptyString (LineGraphic.text_name "address" element)))
         (List.filter (LineGraphic.is_positive Decimal.number "reputation") holders)
      !! 0 = Some segment
    /\ LineGraphic.className segment = "rounded-left".
Proof.
  eexists. split; [reflexivity|].
  assert (Hmany : 1 < 3) by lia.
  exact (proj1 (proj2 (LineGraphic.segment_classes_and_colours Decimal.text
                         Decimal.number holders 100 reputation_bar None _ 0 _
                         drawn_holders eq_refl))
               Hmany eq_refl).
Defined.

(** The label of an address. *)
Lemma short_name_length_witness :
  String.length (LineGraphic.short_name "0x00000000000000000000000000000000000000a1")
  = 13.
Proof.
  assert (Hlong : 10 <= String.length "0x00000000000000000000000000000000000000a1")
    by (cbn; lia).
  exact (proj1 (proj2 (LineGraphic.short_name_length
                         "0x00000000000000000000000000000000000000a1"))
               Hlong).
Defined.
